(** * prov_interop: converters and the ProvPy converter

    A shallow embedding of [prov_interop/converter.py] and
    [prov_interop/provpy/converter.py].

    Python methods are functions in a state-and-exception monad: a
    method receives the state it works on, and returns a result (a value
    or a raised exception) together with the state it leaves behind.
    Mutations made before an exception is raised are kept, as in Python.
    The configuration is a [dict] from strings to values, modelled as a
    [gmap]; the file system and the external process are a [World]. *)

From Stdlib Require Import ZArith Ascii String DecimalString.
From stdpp Require Import gmap strings list.

Local Open Scope string_scope.

(** ** Python values and exceptions *)

(** The values a configuration holds: a string or a list of strings. *)
Inductive value : Type :=
  | VStr (s : string)
  | VList (l : list string).

(** The exceptions the modelled code raises.  [KeyError] is what
    [config[key]] raises on an absent key, [OSError] what
    [subprocess.call] raises when the process cannot be launched. *)
Inductive exn : Type :=
  | ConfigError (msg : string)
  | ConversionError (msg : string)
  | KeyError (key : string)
  | OSError.

Inductive result (A : Type) : Type :=
  | Ok (a : A)
  | Raise (e : exn).

Arguments Ok {A} a.
Arguments Raise {A} e.

(** ** The state-and-exception monad *)

Definition M (S A : Type) : Type := S -> result A * S.

Definition ret {S A} (a : A) : M S A := fun s => (Ok a, s).

Definition bind {S A B} (m : M S A) (k : A -> M S B) : M S B :=
  fun s =>
    match m s with
    | (Ok a, s') => k a s'
    | (Raise e, s') => (Raise e, s')
    end.

Definition raise {S A} (e : exn) : M S A := fun s => (Raise e, s).

Definition get {S} : M S S := fun s => (Ok s, s).

Definition modify {S} (f : S -> S) : M S unit := fun s => (Ok tt, f s).

Declare Scope py_scope.
Delimit Scope py_scope with py.

Notation "x <- m ;; k" := (bind m (fun x => k))
  (at level 100, m at next level, right associativity) : py_scope.
Notation "m ;;; k" := (bind m (fun _ => k))
  (at level 100, right associativity) : py_scope.

Local Open Scope py_scope.

(** [for x in l: body x] *)
Fixpoint for_each {S A} (l : list A) (body : A -> M S unit) : M S unit :=
  match l with
  | [] => ret tt
  | x :: l' => body x ;;; for_each l' body
  end.

(** ** Python string and sequence operations *)

(** [s.startswith(p)] *)
Fixpoint startswith (p s : string) : bool :=
  match p, s with
  | EmptyString, _ => true
  | String a p', String b s' => if Ascii.eqb a b then startswith p' s' else false
  | String _ _, EmptyString => false
  end.

(** [p in s] on two strings: [p] occurs in [s] as a substring. *)
Fixpoint str_contains (p s : string) : bool :=
  startswith p s ||
  match s with
  | EmptyString => false
  | String _ s' => str_contains p s'
  end.

(** [x in l] on a list of strings. *)
Definition list_contains (x : string) (l : list string) : bool :=
  bool_decide (x ∈ l).

(** Iterating a value: a list yields its elements, a string its
    characters (each a string of length one). *)
Fixpoint chars (s : string) : list string :=
  match s with
  | EmptyString => []
  | String a s' => String a EmptyString :: chars s'
  end.

Definition py_iter (v : value) : list string :=
  match v with
  | VList l => l
  | VStr s => chars s
  end.

(** [x in v] *)
Definition py_in (x : string) (v : value) : bool :=
  match v with
  | VList l => list_contains x l
  | VStr s => str_contains x s
  end.

(** [sep.join(l)] *)
Fixpoint join (sep : string) (l : list string) : string :=
  match l with
  | [] => ""
  | [x] => x
  | x :: l' => x +:+ sep +:+ join sep l'
  end.

(** [str(n)] on an integer. *)
Definition str_of_int (n : Z) : string := NilZero.string_of_int (Z.to_int n).

(** [config[key]] *)
Definition getitem {S} (config : gmap string value) (key : string) : M S value :=
  match config !! key with
  | Some v => ret v
  | None => raise (KeyError key)
  end.

(** ** [os.path.splitext]

    The Python library function, in its POSIX form
    ([genericpath._splitext] with separator [/] and extension
    separator [.]).  Indices are integers; [rfind] answers [-1] when the
    character does not occur. *)

Fixpoint rfind_from (c : Ascii.ascii) (p : string) (i acc : Z) : Z :=
  match p with
  | EmptyString => acc
  | String a p' => rfind_from c p' (i + 1) (if Ascii.eqb a c then i else acc)
  end.

(** [p.rfind(c)] *)
Definition rfind (c : Ascii.ascii) (p : string) : Z := rfind_from c p 0 (-1).

(** [p[i:]] and [p[:i]] for [0 <= i] *)
Fixpoint drop_str (n : nat) (p : string) : string :=
  match n, p with
  | O, _ => p
  | S n', String _ p' => drop_str n' p'
  | S _, EmptyString => EmptyString
  end.

Fixpoint take_str (n : nat) (p : string) : string :=
  match n, p with
  | S n', String a p' => String a (take_str n' p')
  | _, _ => EmptyString
  end.

(** [p[i:i+1]] for [0 <= i] *)
Definition char_at (i : Z) (p : string) : string :=
  take_str 1 (drop_str (Z.to_nat i) p).

(** The [while filenameIndex < dotIndex] loop of [_splitext]: does a
    character other than the extension separator occur before the last
    dot?  [n] is the number of iterations left,
    [dotIndex - filenameIndex]. *)
Fixpoint has_filename (p : string) (n : nat) (filenameIndex : Z) : bool :=
  match n with
  | O => false
  | S n' =>
      if decide (char_at filenameIndex p ≠ ".") then true
      else has_filename p n' (filenameIndex + 1)
  end.

Definition splitext (p : string) : string * string :=
  let sepIndex := rfind "/"%char p in
  let dotIndex := rfind "."%char p in
  if (sepIndex <? dotIndex)%Z then
    let filenameIndex := (sepIndex + 1)%Z in
    if has_filename p (Z.to_nat (dotIndex - filenameIndex)) filenameIndex then
      (take_str (Z.to_nat dotIndex) p, drop_str (Z.to_nat dotIndex) p)
    else (p, "")
  else (p, "").

(** [os.path.splitext(p)[1][1:]]: the extension without its dot. *)
Definition extension (p : string) : string := drop_str 1 (splitext p).2.

(** ** Component state *)

(** The instance attributes of a component.  One record serves every
    class of the hierarchy: a [ProvPyConverter] has all the fields, a
    plain [Converter] leaves the command-line ones untouched. *)
Record Component : Type := mkComponent {
  _config : gmap string value;
  _input_formats : value;
  _output_formats : value;
  _executable : list string;
  _arguments : list string
}.

Definition set_config (v : gmap string value) (c : Component) : Component :=
  mkComponent v (_input_formats c) (_output_formats c) (_executable c) (_arguments c).
Definition set_input_formats (v : value) (c : Component) : Component :=
  mkComponent (_config c) v (_output_formats c) (_executable c) (_arguments c).
Definition set_output_formats (v : value) (c : Component) : Component :=
  mkComponent (_config c) (_input_formats c) v (_executable c) (_arguments c).
Definition set_executable (v : list string) (c : Component) : Component :=
  mkComponent (_config c) (_input_formats c) (_output_formats c) v (_arguments c).
Definition set_arguments (v : list string) (c : Component) : Component :=
  mkComponent (_config c) (_input_formats c) (_output_formats c) (_executable c) v.

(** ** The world outside the converter *)

(** [isfile] answers [os.path.isfile]; [stdout] collects what [print]
    wrote; [invocations] logs every command line handed to
    [subprocess.call], in order. *)
Record World : Type := mkWorld {
  isfile : string -> bool;
  stdout : list string;
  invocations : list (list string)
}.

(** How an external process ends: it exits with a status, or it could
    not be launched. *)
Inductive call_outcome : Type :=
  | Exited (return_code : Z)
  | LaunchFailed.

(** An external tool: from the argument vector and the files present,
    how the process ends and the files present afterwards. *)
Definition Tool : Type := list string -> (string -> bool) -> call_outcome * (string -> bool).

(** [os.path.isfile(p)] *)
Definition os_path_isfile (p : string) : M World bool :=
  fun w => (Ok (isfile w p), w).

(** [print(s)] *)
Definition print (s : string) : M World unit :=
  modify (fun w => mkWorld (isfile w) (stdout w ++ [s])%list (invocations w)).

(** [subprocess.call(command_line)]: runs the process to completion and
    returns its exit status; raises [OSError] when it cannot be
    launched.  An argument vector that the library refuses before it
    tries to start a process (an empty list, a NUL character in an
    argument) raises an exception of the library's own, which depends
    on the Python version; such calls are outside this model. *)
Definition subprocess_call (tool : Tool) (command_line : list string) : M World Z :=
  fun w =>
    let '(outcome, files) := tool command_line (isfile w) in
    let w' := mkWorld files (stdout w) (invocations w ++ [command_line])%list in
    match outcome with
    | Exited return_code => (Ok return_code, w')
    | LaunchFailed => (Raise OSError, w')
    end.

(** A converter at work: the object and the world around it. *)
Record Sys : Type := mkSys {
  self : Component;
  world : World
}.

Definition on_self {A} (m : M Component A) : M Sys A :=
  fun s => let '(r, c) := m (self s) in (r, mkSys c (world s)).

Definition on_world {A} (m : M World A) : M Sys A :=
  fun s => let '(r, w) := m (world s) in (r, mkSys (self s) w).


(** ** [prov_interop.standards] *)

Module standards.

(** Modelled from the spec: [prov_interop/standards.py] is not among
    the sources.  The ProvPy converter's documentation names the
    format it aliases: if the output format is [provx] then [xml] is
    used as [FORMAT].  The registry [standards.FORMATS] itself is an
    external collaborator; the converters below take it as a
    parameter. *)
Definition PROVX : string := "provx".

End standards.

(** ** [prov_interop.component] *)

Module ConfigurableComponent.

(** Modelled from the spec: [prov_interop/component.py] is not among
    the sources.  [configure(config)] accepts a configuration value and
    stores it in the component. *)
Definition configure (config : gmap string value) : M Component unit :=
  modify (set_config config).

(** Modelled from the spec: [check_configuration(keys)] fails with a
    [ConfigError] naming the first missing key if the configuration
    does not contain every key in [keys].  The spec does not give the
    wording of the message; the model carries the key's name. *)
Definition check_configuration (keys : list string) : M Component unit :=
  for_each keys (fun key =>
    c <- get ;;
    if decide (is_Some (_config c !! key)) then ret tt
    else raise (ConfigError key)).

End ConfigurableComponent.

(** [s.split()]: the tokens of [s] between runs of white space. *)
Definition is_space (a : Ascii.ascii) : bool :=
  bool_decide (a ∈ [" "; "009"; "010"; "011"; "012"; "013"]%char).

Fixpoint split_from (token s : string) : list string :=
  match s with
  | EmptyString => if decide (token = "") then [] else [token]
  | String a s' =>
      if is_space a then
        if decide (token = "") then split_from "" s' else token :: split_from "" s'
      else split_from (token +:+ String a "") s'
  end.

Definition split (s : string) : list string := split_from "" s.

Module CommandLineComponent.

Definition EXECUTABLE : string := "executable".
Definition ARGUMENTS : string := "arguments".

(** Modelled from the spec: the executable is a single token or a
    list of tokens forming the invocation prefix. *)
Definition executable_tokens (v : value) : list string :=
  match v with
  | VStr s => [s]
  | VList l => l
  end.

(** Modelled from the spec: the arguments are a string that is split
    into tokens at white space, or an equivalent list. *)
Definition argument_tokens (v : value) : list string :=
  match v with
  | VStr s => split s
  | VList l => l
  end.

(** Modelled from the spec: [prov_interop/component.py] is not among
    the sources.  The component extends [ConfigurableComponent]; its
    configuration must supply [executable] and [arguments], which it
    parses and keeps as [_executable] and [_arguments]. *)
Definition configure (config : gmap string value) : M Component unit :=
  ConfigurableComponent.configure config ;;;
  ConfigurableComponent.check_configuration [EXECUTABLE; ARGUMENTS] ;;;
  executable <- getitem config EXECUTABLE ;;
  modify (set_executable (executable_tokens executable)) ;;;
  arguments <- getitem config ARGUMENTS ;;
  modify (set_arguments (argument_tokens arguments)).

End CommandLineComponent.

(** ** [prov_interop.converter] *)

Module Converter.

Definition INPUT_FORMATS : string := "input-formats".
Definition OUTPUT_FORMATS : string := "output-formats".

(** [__init__].  The attributes of the inherited classes are
    modelled from the spec: an empty configuration, executable and
    argument list. *)
Definition init : Component := mkComponent ∅ (VList []) (VList []) [] [].

(** The properties [input_formats] and [output_formats]. *)
Definition input_formats (c : Component) : value := _input_formats c.
Definition output_formats (c : Component) : value := _output_formats c.

Section Configure.

(** [standards.FORMATS], the registry of formats. *)
Variable FORMATS : list string.

(** [super(Converter, self).configure]: the next [configure] in the
    method resolution order of the instance.  For a plain
    [Converter] that is [ConfigurableComponent.configure]; for a
    [ProvPyConverter(Converter, CommandLineComponent)] it is
    [CommandLineComponent.configure]. *)
Variable super_configure : gmap string value -> M Component unit.

Definition configure (config : gmap string value) : M Component unit :=
  super_configure config ;;;
  ConfigurableComponent.check_configuration [INPUT_FORMATS; OUTPUT_FORMATS] ;;;
  for_each [INPUT_FORMATS; OUTPUT_FORMATS] (fun key =>
    formats <- getitem config key ;;
    for_each (py_iter formats) (fun format =>
      if negb (list_contains format FORMATS) then
        raise (ConfigError ("Unrecognised format in " +:+ key +:+ ":" +:+ format))
      else ret tt)) ;;;
  input <- getitem config INPUT_FORMATS ;;
  modify (set_input_formats input) ;;;
  output <- getitem config OUTPUT_FORMATS ;;
  modify (set_output_formats output).

End Configure.

Definition check_formats (in_format out_format : string) : M Component unit :=
  c <- get ;;
  (if negb (py_in in_format (input_formats c)) then
     raise (ConversionError ("Unsupported input format: " +:+ in_format))
   else ret tt) ;;;
  c <- get ;;
  (if negb (py_in out_format (output_formats c)) then
     raise (ConversionError ("Unsupported input format: " +:+ out_format))
   else ret tt).

Definition convert (in_file out_file : string) : M Sys unit :=
  found <- on_world (os_path_isfile in_file) ;;
  if negb found then
    raise (ConversionError ("Input file not found: " +:+ in_file))
  else ret tt.

End Converter.

(** ** [prov_interop.provpy.converter] *)

Module ProvPyConverter.

Definition FORMAT : string := "FORMAT".
Definition INPUT : string := "INPUT".
Definition OUTPUT : string := "OUTPUT".

Definition LOCAL_FORMATS : gmap string string := {[ standards.PROVX := "xml" ]}.

Definition init : Component := Converter.init.

(** [super(ProvPyConverter, self).configure] is [Converter.configure];
    the method resolution order of the class is [ProvPyConverter],
    [Converter], [CommandLineComponent], [ConfigurableComponent], so the
    [super] call inside [Converter.configure] runs
    [CommandLineComponent.configure], which sets [_arguments]. *)
Definition configure (FORMATS : list string) (config : gmap string value)
  : M Component unit :=
  Converter.configure FORMATS CommandLineComponent.configure config ;;;
  for_each [FORMAT; INPUT; OUTPUT] (fun token =>
    c <- get ;;
    if negb (list_contains token (_arguments c)) then
      raise (ConfigError ("Missing token " +:+ token))
    else ret tt).

(** [[new if x == placeholder else x for x in command_line]] *)
Definition substitute (placeholder new : string) (command_line : list string)
  : list string :=
  map (fun x => if decide (x = placeholder) then new else x) command_line.

(** The command line [convert] builds: the executable, extended by
    the arguments, with the three placeholders replaced one pass after
    another. *)
Definition build_command_line (c : Component)
    (local_format in_file out_file : string) : list string :=
  let command_line := _executable c in
  let command_line := (command_line ++ _arguments c)%list in
  let command_line := substitute FORMAT local_format command_line in
  let command_line := substitute INPUT in_file command_line in
  let command_line := substitute OUTPUT out_file command_line in
  command_line.

(** The format handed to the tool: the local alias of the output
    format when it has one. *)
Definition local_format_of (out_format : string) : string :=
  let local_format := out_format in
  match LOCAL_FORMATS !! out_format with
  | Some alias => alias
  | None => local_format
  end.

Section Convert.

(** The external program behind the configured executable. *)
Variable tool : Tool.

Definition convert (in_file out_file : string) : M Sys unit :=
  Converter.convert in_file out_file ;;;
  let in_format := extension in_file in
  let out_format := extension out_file in
  on_self (Converter.check_formats in_format out_format) ;;;
  let local_format := local_format_of out_format in
  s <- get ;;
  let command_line := build_command_line (self s) local_format in_file out_file in
  on_world (print (join " " command_line)) ;;;
  return_code <- on_world (subprocess_call tool command_line) ;;
  if decide (return_code ≠ 0%Z) then
    raise (ConversionError (join " " command_line +:+ " returned "
                            +:+ str_of_int return_code))
  else
    found <- on_world (os_path_isfile out_file) ;;
    if negb found then
      raise (ConversionError ("Output file not found: " +:+ out_file))
    else ret tt.

End Convert.

End ProvPyConverter.

(** ** Predicates of the statements *)

(** [convert] gets as far as the process invocation: the input file
    exists and both formats, read off the file extensions, are
    supported. *)
Definition reaches_invocation (s : Sys) (in_file out_file : string) : bool :=
  isfile (world s) in_file
  && py_in (extension in_file) (Converter.input_formats (self s))
  && py_in (extension out_file) (Converter.output_formats (self s)).

(** A format the registry does not hold. *)
Definition unrecognised (FORMATS : list string) (format : string) : bool :=
  negb (list_contains format FORMATS).

(** A required key the configuration does not hold. *)
Definition missing_key (config : gmap string value) (key : string) : bool :=
  negb (bool_decide (is_Some (config !! key))).

(** The first placeholder, in the order FORMAT, INPUT, OUTPUT, that a
    token sequence lacks. *)
Definition first_missing_token (arguments : list string) : option string :=
  List.find (fun token => negb (list_contains token arguments))
    [ProvPyConverter.FORMAT; ProvPyConverter.INPUT; ProvPyConverter.OUTPUT].

(** What the three passes do to one token. *)
Definition substitute_token (local_format in_file out_file token : string) : string :=
  let x := if decide (token = ProvPyConverter.FORMAT) then local_format else token in
  let x := if decide (x = ProvPyConverter.INPUT) then in_file else x in
  let x := if decide (x = ProvPyConverter.OUTPUT) then out_file else x in
  x.

(** The messages of the errors. *)
Definition unsupported_message (format : string) : string :=
  "Unsupported input format: " +:+ format.

Definition unrecognised_message (key format : string) : string :=
  "Unrecognised format in " +:+ key +:+ ":" +:+ format.

Definition input_not_found_message (in_file : string) : string :=
  "Input file not found: " +:+ in_file.

Definition output_not_found_message (out_file : string) : string :=
  "Output file not found: " +:+ out_file.

Definition returned_message (command_line : list string) (return_code : Z) : string :=
  join " " command_line +:+ " returned " +:+ str_of_int return_code.

Definition missing_token_message (token : string) : string :=
  "Missing token " +:+ token.

(** The format check of [configure], as a function of the two values:
    the error for the first unrecognised format, input formats first. *)
Definition first_unrecognised (FORMATS : list string) (input output : value)
  : option (string * string) :=
  match List.find (unrecognised FORMATS) (py_iter input) with
  | Some format => Some (Converter.INPUT_FORMATS, format)
  | None =>
      match List.find (unrecognised FORMATS) (py_iter output) with
      | Some format => Some (Converter.OUTPUT_FORMATS, format)
      | None => None
      end
  end.

(** The world [convert] leaves behind once it has invoked the tool. *)
Definition after_invocation (w : World) (command_line : list string)
    (files : string -> bool) : World :=
  mkWorld files (stdout w ++ [join " " command_line])%list
          (invocations w ++ [command_line])%list.

(** The command line of a call. *)
Definition command_line_of (c : Component) (in_file out_file : string) : list string :=
  ProvPyConverter.build_command_line c
    (ProvPyConverter.local_format_of (extension out_file)) in_file out_file.

(** ** Sample inputs *)

(** The valid configuration of the [ProvPyConverter.configure]
    documentation. *)
Definition documented_config : gmap string value :=
  {[ "executable" := VStr "prov-convert";
     "arguments" := VStr "-f FORMAT INPUT OUTPUT";
     "input-formats" := VList ["json"];
     "output-formats" := VList ["provn"; "provx"; "json"] ]}.

(** A registry that holds the formats the documentation names. *)
Definition sample_FORMATS : list string := ["provn"; "provx"; "json"].

(** The converter after [configure(documented_config)]. *)
Definition documented_converter : Component :=
  (ProvPyConverter.configure sample_FORMATS documented_config ProvPyConverter.init).2.

(** A world whose only file is [a.json]. *)
Definition sample_world : World :=
  mkWorld (fun p => bool_decide (p = "a.json")) [] [].

(** A tool that writes the file named by its last argument and exits
    with status 0. *)
Definition tool_writes_output : Tool :=
  fun command_line files =>
    (Exited 0, fun p => if decide (Some p = last command_line) then true else files p).

(** A tool that writes nothing and exits with the given status. *)
Definition tool_exits (return_code : Z) : Tool :=
  fun _ files => (Exited return_code, files).

(** A tool that cannot be launched. *)
Definition tool_not_found : Tool :=
  fun _ files => (LaunchFailed, files).

(** * Properties *)

Ltac run :=
  unfold bind, ret, raise, get, modify, on_self, on_world,
    os_path_isfile, print, subprocess_call; simpl.

(** ** The library functions *)

Example extension_json : extension "a.json" = "json".
Proof. reflexivity. Qed.

Example extension_provx : extension "b.provx" = "provx".
Proof. reflexivity. Qed.

Example extension_after_separator : extension "d.x/testcase1" = "".
Proof. reflexivity. Qed.

Example extension_none : extension "OUTPUT" = "".
Proof. reflexivity. Qed.

Example extension_leading_dot : extension "dir/.hidden" = "".
Proof. reflexivity. Qed.

Example split_arguments : split "-f FORMAT INPUT OUTPUT" = ["-f"; "FORMAT"; "INPUT"; "OUTPUT"].
Proof. reflexivity. Qed.

Lemma py_in_list (x : string) (l : list string) : py_in x (VList l) = true <-> x ∈ l.
Proof. simpl. unfold list_contains. apply bool_decide_eq_true. Qed.

Lemma startswith_app (p s : string) : startswith p (p +:+ s) = true.
Proof.
  induction p as [|a p IH]; simpl; [done|].
  by rewrite Ascii.eqb_refl.
Qed.

Lemma str_contains_here (p s : string) : startswith p s = true -> str_contains p s = true.
Proof. intros H. destruct s; simpl in *; rewrite H; done. Qed.

Lemma str_contains_app_r (p a s : string) :
  str_contains p s = true -> str_contains p (a +:+ s) = true.
Proof.
  intros H. induction a as [|x a IH]; simpl; [done|].
  rewrite IH. apply orb_true_r.
Qed.

Lemma startswith_refl (p : string) : startswith p p = true.
Proof. induction p as [|a p IH]; simpl; [done|]. by rewrite Ascii.eqb_refl. Qed.

Lemma str_contains_refl (p : string) : str_contains p p = true.
Proof. apply str_contains_here, startswith_refl. Qed.

Lemma str_contains_suffix (a p : string) : str_contains p (a +:+ p) = true.
Proof. apply str_contains_app_r, str_contains_refl. Qed.

(** ** Loops that only raise *)

(** A loop whose body raises on the elements that satisfy [bad], and
    does nothing on the others, raises at the first such element and
    leaves the state alone. *)
Lemma for_each_find {S} (bad : string -> bool) (error : string -> exn)
    (l : list string) (s : S) :
  for_each l (fun x => if bad x then raise (error x) else ret tt) s =
  (match List.find bad l with
   | Some x => Raise (error x)
   | None => Ok tt
   end, s).
Proof.
  induction l as [|x l IH]; simpl; [done|].
  unfold bind at 1. destruct (bad x); [done|]. simpl. apply IH.
Qed.

Lemma check_configuration_run (keys : list string) (c : Component) :
  ConfigurableComponent.check_configuration keys c =
  (match List.find (missing_key (_config c)) keys with
   | Some key => Raise (ConfigError key)
   | None => Ok tt
   end, c).
Proof.
  unfold ConfigurableComponent.check_configuration.
  induction keys as [|key keys IH]; simpl; [done|].
  unfold missing_key at 1. run.
  destruct (decide (is_Some (_config c !! key))) as [H|H].
  - rewrite (bool_decide_eq_true_2 _ H). simpl. apply IH.
  - by rewrite (bool_decide_eq_false_2 _ H).
Qed.

Lemma find_none_iff (bad : string -> bool) (l : list string) :
  List.find bad l = None <-> forall x, x ∈ l -> bad x = false.
Proof.
  split.
  - intros H x Hx. apply list_elem_of_In in Hx.
    exact (List.find_none bad l H x Hx).
  - intros H. induction l as [|x l IH]; simpl; [done|].
    rewrite (H x) by left. apply IH. intros y Hy. apply H. by right.
Qed.

Lemma find_some_elem (bad : string -> bool) (l : list string) (x : string) :
  List.find bad l = Some x -> x ∈ l /\ bad x = true.
Proof.
  intros H. apply List.find_some in H as [H1 H2].
  split; [by apply list_elem_of_In|done].
Qed.

(** ** [Converter.check_formats] *)

Lemma check_formats_run (in_format out_format : string) (c : Component) :
  Converter.check_formats in_format out_format c =
  (if py_in in_format (Converter.input_formats c) then
     if py_in out_format (Converter.output_formats c) then Ok tt
     else Raise (ConversionError (unsupported_message out_format))
   else Raise (ConversionError (unsupported_message in_format)), c).
Proof.
  unfold Converter.check_formats. run.
  destruct (py_in in_format _); simpl; [|done].
  destruct (py_in out_format _); done.
Qed.

(** ** [Converter.configure] *)

(** Once the inherited [configure] has succeeded and left the
    configuration in the component, [Converter.configure] on a
    configuration with both keys either raises for the first
    unrecognised format or stores both values. *)
Lemma configure_run (FORMATS : list string)
    (super_configure : gmap string value -> M Component unit)
    (config : gmap string value) (c c1 : Component) (input output : value) :
  super_configure config c = (Ok tt, c1) ->
  _config c1 = config ->
  config !! Converter.INPUT_FORMATS = Some input ->
  config !! Converter.OUTPUT_FORMATS = Some output ->
  Converter.configure FORMATS super_configure config c =
  match first_unrecognised FORMATS input output with
  | Some (key, format) => (Raise (ConfigError (unrecognised_message key format)), c1)
  | None => (Ok tt, set_output_formats output (set_input_formats input c1))
  end.
Proof.
  intros Hsuper Hconfig Hin Hout.
  unfold Converter.configure, first_unrecognised.
  unfold bind at 1. rewrite Hsuper.
  unfold bind at 1. rewrite check_configuration_run, Hconfig. simpl.
  unfold missing_key. rewrite Hin, Hout.
  rewrite !bool_decide_eq_true_2 by eauto. simpl.
  unfold bind at 1. unfold bind at 1. unfold bind at 1.
  unfold getitem at 1. rewrite Hin. unfold ret at 1.
  rewrite (for_each_find (unrecognised FORMATS)
             (fun format => ConfigError (unrecognised_message Converter.INPUT_FORMATS format))).
  destruct (List.find _ (py_iter input)); [done|].
  unfold bind at 1. unfold bind at 1.
  unfold getitem at 1. rewrite Hout. unfold ret at 1.
  rewrite (for_each_find (unrecognised FORMATS)
             (fun format => ConfigError (unrecognised_message Converter.OUTPUT_FORMATS format))).
  destruct (List.find _ (py_iter output)); [done|].
  unfold getitem. rewrite Hin, Hout. done.
Qed.

(** A configuration that lacks one of the two keys is refused by the
    key check, before any format is looked at. *)
Lemma configure_missing_key (FORMATS : list string)
    (super_configure : gmap string value -> M Component unit)
    (config : gmap string value) (c c1 : Component) (key : string) :
  super_configure config c = (Ok tt, c1) ->
  _config c1 = config ->
  List.find (missing_key config) [Converter.INPUT_FORMATS; Converter.OUTPUT_FORMATS]
    = Some key ->
  Converter.configure FORMATS super_configure config c = (Raise (ConfigError key), c1).
Proof.
  intros Hsuper Hconfig Hkey.
  unfold Converter.configure.
  unfold bind at 1. rewrite Hsuper.
  unfold bind at 1. rewrite check_configuration_run, Hconfig, Hkey. done.
Qed.

(** ** [convert] *)

Lemma base_convert_run (in_file out_file : string) (s : Sys) :
  Converter.convert in_file out_file s =
  (if isfile (world s) in_file then Ok tt
   else Raise (ConversionError (input_not_found_message in_file)), s).
Proof.
  unfold Converter.convert. run. destruct s as [c w]; simpl.
  destruct (isfile w in_file); done.
Qed.

(** A call that reaches the invocation hands the built command line to
    the tool, once, and judges the outcome. *)
Lemma convert_reached (tool : Tool) (in_file out_file : string) (s : Sys) :
  reaches_invocation s in_file out_file = true ->
  ProvPyConverter.convert tool in_file out_file s =
  let command_line := command_line_of (self s) in_file out_file in
  let '(outcome, files) := tool command_line (isfile (world s)) in
  (match outcome with
   | LaunchFailed => Raise OSError
   | Exited return_code =>
       if decide (return_code ≠ 0%Z) then
         Raise (ConversionError (returned_message command_line return_code))
       else if files out_file then Ok tt
       else Raise (ConversionError (output_not_found_message out_file))
   end,
   mkSys (self s) (after_invocation (world s) command_line files)).
Proof.
  unfold reaches_invocation. intros H.
  apply andb_true_iff in H as [H Hout]. apply andb_true_iff in H as [Hfile Hin].
  unfold ProvPyConverter.convert.
  unfold bind at 1. rewrite base_convert_run, Hfile.
  unfold bind at 1. unfold on_self at 1. rewrite check_formats_run, Hin, Hout.
  destruct s as [c w]; simpl. run.
  fold (command_line_of c in_file out_file).
  destruct (tool (command_line_of c in_file out_file) (isfile w)) as [outcome files].
  unfold after_invocation.
  destruct outcome as [return_code|]; simpl; [|done].
  destruct (decide (return_code ≠ 0%Z)); simpl; [done|].
  destruct (files out_file); done.
Qed.

(** A call that does not reach the invocation raises a
    [ConversionError] and leaves the world as it found it. *)
Lemma convert_refused (tool : Tool) (in_file out_file : string) (s : Sys) :
  reaches_invocation s in_file out_file = false ->
  exists msg,
    ProvPyConverter.convert tool in_file out_file s = (Raise (ConversionError msg), s).
Proof.
  unfold reaches_invocation. intros H.
  unfold ProvPyConverter.convert.
  unfold bind at 1. rewrite base_convert_run.
  destruct (isfile (world s) in_file); [|eauto]. simpl in H.
  unfold bind at 1. unfold on_self at 1. rewrite check_formats_run.
  destruct s as [c w]; simpl in *.
  destruct (py_in (extension in_file) _); simpl in H.
  - rewrite H. eauto.
  - eauto.
Qed.

(** ** Token substitution *)

Lemma build_command_line_map (c : Component) (local_format in_file out_file : string) :
  ProvPyConverter.build_command_line c local_format in_file out_file =
  map (substitute_token local_format in_file out_file)
      (_executable c ++ _arguments c)%list.
Proof.
  unfold ProvPyConverter.build_command_line, ProvPyConverter.substitute.
  rewrite !map_map. done.
Qed.

Lemma build_command_line_lookup (c : Component)
    (local_format in_file out_file : string) (i : nat) :
  ProvPyConverter.build_command_line c local_format in_file out_file !! i =
  substitute_token local_format in_file out_file
    <$> (_executable c ++ _arguments c)%list !! i.
Proof. rewrite build_command_line_map. apply list_lookup_fmap. Qed.

Lemma substitute_token_other (local_format in_file out_file token : string) :
  token ≠ ProvPyConverter.FORMAT ->
  token ≠ ProvPyConverter.INPUT ->
  token ≠ ProvPyConverter.OUTPUT ->
  substitute_token local_format in_file out_file token = token.
Proof.
  intros HF HI HO. unfold substitute_token. cbv zeta.
  repeat case_decide; congruence.
Qed.

(** * The claims *)

(** ** The documented conversion *)

(** C1: a converter with input formats [json], output formats [provn],
    [provx], [json] and the argument tokens [-f FORMAT INPUT OUTPUT],
    asked to convert the existing file [a.json] into [b.provx], hands the
    tool one command line, and its last four tokens are [-f], [xml],
    [a.json], [b.provx]: FORMAT receives the local alias of the output
    format, INPUT and OUTPUT the two paths as given. *)
Theorem convert_json_to_provx_command_line
    (tool : Tool) (c : Component) (w : World) :
  Converter.input_formats c = VList ["json"] ->
  Converter.output_formats c = VList ["provn"; "provx"; "json"] ->
  _arguments c = ["-f"; "FORMAT"; "INPUT"; "OUTPUT"] ->
  isfile w "a.json" = true ->
  let s' := (ProvPyConverter.convert tool "a.json" "b.provx" (mkSys c w)).2 in
  exists prefix : list string,
    length prefix = length (_executable c) /\
    command_line_of c "a.json" "b.provx"
      = (prefix ++ ["-f"; "xml"; "a.json"; "b.provx"])%list /\
    invocations (world s')
      = (invocations w ++ [prefix ++ ["-f"; "xml"; "a.json"; "b.provx"]])%list.
Proof.
  intros Hin Hout Hargs Hfile s'.
  assert (Hcmd : command_line_of c "a.json" "b.provx"
                 = (map (substitute_token "xml" "a.json" "b.provx") (_executable c)
                    ++ ["-f"; "xml"; "a.json"; "b.provx"])%list).
  { unfold command_line_of. rewrite build_command_line_map, map_app, Hargs. done. }
  exists (map (substitute_token "xml" "a.json" "b.provx") (_executable c)).
  split; [apply length_map|]. split; [exact Hcmd|].
  subst s'. rewrite convert_reached.
  - simpl. rewrite Hcmd.
    destruct (tool _ (isfile w)) as [outcome files]. done.
  - unfold reaches_invocation. simpl. rewrite Hfile.
    unfold Converter.input_formats, Converter.output_formats in *.
    rewrite Hin, Hout. done.
Qed.

Lemma convert_json_to_provx_command_line_witness :
  let s' := (ProvPyConverter.convert tool_writes_output "a.json" "b.provx"
               (mkSys documented_converter sample_world)).2 in
  exists prefix : list string,
    length prefix = length (_executable documented_converter) /\
    command_line_of documented_converter "a.json" "b.provx"
      = (prefix ++ ["-f"; "xml"; "a.json"; "b.provx"])%list /\
    invocations (world s')
      = (invocations sample_world ++ [prefix ++ ["-f"; "xml"; "a.json"; "b.provx"]])%list.
Proof.
  apply (convert_json_to_provx_command_line
           tool_writes_output documented_converter sample_world);
    reflexivity.
Defined.

(** ** The outcome of the process *)

(** C2: for every call that reaches the process invocation and whose
    process exits: a non-zero status raises a [ConversionError] whose
    message is the invocation string, [ returned ] and the status, so it
    contains both; status zero without the output file raises a
    [ConversionError] that mentions the output path; status zero with
    the output file returns [None]. *)
Theorem convert_judges_outcome
    (tool : Tool) (in_file out_file : string) (s : Sys)
    (return_code : Z) (files : string -> bool) :
  reaches_invocation s in_file out_file = true ->
  tool (command_line_of (self s) in_file out_file) (isfile (world s))
    = (Exited return_code, files) ->
  let invocation := join " " (command_line_of (self s) in_file out_file) in
  let r := (ProvPyConverter.convert tool in_file out_file s).1 in
  (return_code ≠ 0%Z ->
     exists msg, r = Raise (ConversionError msg) /\
       msg = invocation +:+ " returned " +:+ str_of_int return_code /\
       str_contains invocation msg = true /\
       str_contains (str_of_int return_code) msg = true) /\
  (return_code = 0%Z -> files out_file = false ->
     exists msg, r = Raise (ConversionError msg) /\
       msg = "Output file not found: " +:+ out_file /\
       str_contains out_file msg = true) /\
  (return_code = 0%Z -> files out_file = true -> r = Ok tt).
Proof.
  intros Hreach Htool invocation r. subst r.
  rewrite (convert_reached _ _ _ _ Hreach). cbv zeta. rewrite Htool. simpl.
  repeat split.
  - intros Hrc. rewrite decide_True by done. eexists. split; [done|].
    unfold returned_message. fold invocation. split; [done|]. split.
    + apply str_contains_here, startswith_app.
    + apply str_contains_app_r, str_contains_suffix.
  - intros Hrc Hfiles. rewrite decide_False by (intros H; by apply H).
    rewrite Hfiles. eexists. split; [done|]. split; [done|].
    apply str_contains_suffix.
  - intros Hrc Hfiles. rewrite decide_False by (intros H; by apply H).
    by rewrite Hfiles.
Qed.

Lemma convert_judges_outcome_witness :
  exists msg,
    (ProvPyConverter.convert (tool_exits 1) "a.json" "b.provx"
       (mkSys documented_converter sample_world)).1 = Raise (ConversionError msg) /\
    msg = "prov-convert -f xml a.json b.provx returned 1".
Proof.
  destruct (convert_judges_outcome (tool_exits 1) "a.json" "b.provx"
              (mkSys documented_converter sample_world) 1%Z
              (isfile sample_world) eq_refl eq_refl) as [H _].
  destruct (H ltac:(done)) as (msg & Hr & Hmsg & _).
  exists msg. split; [exact Hr|exact Hmsg].
Defined.

(** ** Format checks *)

(** C3: [check_formats(a, b)] raises a [ConversionError] exactly when
    [a] is not in the input formats or [b] is not in the output
    formats; otherwise it returns [None]; it raises nothing else, and in
    every case the converter is left as it was.  Membership is Python's
    [in]: on a list of formats, [py_in_list] reads it as [∈]. *)
Theorem check_formats_raises_iff (c : Component) (a b : string) :
  let r := Converter.check_formats a b c in
  ((exists msg, r.1 = Raise (ConversionError msg)) <->
     (py_in a (Converter.input_formats c) = false \/
      py_in b (Converter.output_formats c) = false)) /\
  (r.1 = Ok tt <->
     (py_in a (Converter.input_formats c) = true /\
      py_in b (Converter.output_formats c) = true)) /\
  (r.1 = Ok tt \/ exists msg, r.1 = Raise (ConversionError msg)) /\
  r.2 = c.
Proof.
  cbv zeta. rewrite check_formats_run. simpl.
  destruct (py_in a _), (py_in b _); repeat split;
    try (intros [msg H]); try (intros [H|H]); try (intros [H1 H2]);
    try intros H; try discriminate; eauto.
Qed.

(** C9: for an unsupported format [check_formats] raises a
    [ConversionError] whose message ends in that format; when the input
    format is supported and the output format is not, the message is
    [Unsupported input format: ] followed by the output format. *)
Theorem check_formats_message (c : Component) (a b : string) :
  let r := (Converter.check_formats a b c).1 in
  (py_in a (Converter.input_formats c) = false ->
     r = Raise (ConversionError ("Unsupported input format: " +:+ a)) /\
     str_contains a ("Unsupported input format: " +:+ a) = true) /\
  (py_in a (Converter.input_formats c) = true ->
   py_in b (Converter.output_formats c) = false ->
     r = Raise (ConversionError ("Unsupported input format: " +:+ b)) /\
     str_contains b ("Unsupported input format: " +:+ b) = true).
Proof.
  cbv zeta. rewrite check_formats_run. cbn [fst]. split.
  - intros ->. split; [done|apply str_contains_suffix].
  - intros -> ->. split; [done|apply str_contains_suffix].
Qed.

(** ** The input file *)

(** C4: when the input file does not exist, [convert] raises a
    [ConversionError], in the base class and in [ProvPyConverter] alike,
    and the world is left as it was: nothing is printed and no process
    is invoked. *)
Theorem convert_missing_input (tool : Tool) (in_file out_file : string) (s : Sys) :
  isfile (world s) in_file = false ->
  Converter.convert in_file out_file s
    = (Raise (ConversionError ("Input file not found: " +:+ in_file)), s) /\
  ProvPyConverter.convert tool in_file out_file s
    = (Raise (ConversionError ("Input file not found: " +:+ in_file)), s) /\
  invocations (world (ProvPyConverter.convert tool in_file out_file s).2)
    = invocations (world s).
Proof.
  intros Hfile.
  assert (Hbase : Converter.convert in_file out_file s
                  = (Raise (ConversionError ("Input file not found: " +:+ in_file)), s)).
  { rewrite base_convert_run, Hfile. done. }
  assert (Hprov : ProvPyConverter.convert tool in_file out_file s
                  = (Raise (ConversionError ("Input file not found: " +:+ in_file)), s)).
  { unfold ProvPyConverter.convert. unfold bind at 1. rewrite Hbase. done. }
  rewrite Hprov. done.
Qed.

Lemma convert_missing_input_witness :
  ProvPyConverter.convert tool_writes_output "b.json" "b.provx"
    (mkSys documented_converter sample_world)
  = (Raise (ConversionError "Input file not found: b.json"),
     mkSys documented_converter sample_world).
Proof.
  exact (proj1 (proj2 (convert_missing_input tool_writes_output "b.json" "b.provx"
                         (mkSys documented_converter sample_world) eq_refl))).
Defined.

(** ** Token substitution *)

(** C5: a token of the argument template that is none of [FORMAT],
    [INPUT], [OUTPUT] stands unchanged, at its own position, in the
    command line built, whatever the executable prefix and the
    substituted values; the command line has as many tokens as prefix and
    template together. *)
Theorem literal_tokens_unchanged
    (c : Component) (local_format in_file out_file : string)
    (i : nat) (token : string) :
  _arguments c !! i = Some token ->
  token ≠ ProvPyConverter.FORMAT ->
  token ≠ ProvPyConverter.INPUT ->
  token ≠ ProvPyConverter.OUTPUT ->
  ProvPyConverter.build_command_line c local_format in_file out_file
    !! (length (_executable c) + i) = Some token /\
  length (ProvPyConverter.build_command_line c local_format in_file out_file)
    = length (_executable c) + length (_arguments c).
Proof.
  intros Hi HF HI HO. split.
  - rewrite build_command_line_lookup, lookup_app_r by lia.
    replace (length (_executable c) + i - length (_executable c)) with i by lia.
    rewrite Hi. simpl. f_equal. by apply substitute_token_other.
  - rewrite build_command_line_map, length_map, length_app. done.
Qed.

Lemma literal_tokens_unchanged_witness :
  ProvPyConverter.build_command_line
    (set_arguments ["--INPUT=x"; "FORMAT"; "INPUT"; "OUTPUT"; "OUTPUT.log"]
       documented_converter) "xml" "a.json" "b.provx"
  = ["prov-convert"; "--INPUT=x"; "xml"; "a.json"; "b.provx"; "OUTPUT.log"] /\
  ProvPyConverter.build_command_line
    (set_arguments ["--INPUT=x"; "FORMAT"; "INPUT"; "OUTPUT"; "OUTPUT.log"]
       documented_converter) "xml" "a.json" "b.provx" !! (1 + 4)
  = Some "OUTPUT.log".
Proof.
  split; [reflexivity|].
  apply (literal_tokens_unchanged
           (set_arguments ["--INPUT=x"; "FORMAT"; "INPUT"; "OUTPUT"; "OUTPUT.log"]
              documented_converter) "xml" "a.json" "b.provx" 4 "OUTPUT.log");
    [reflexivity|discriminate..].
Defined.

(** C10: the three substitutions are passes one after another over the
    whole command line: each token is rewritten by the FORMAT pass, the
    result by the INPUT pass, and that result by the OUTPUT pass.  So
    when the input file is literally [OUTPUT] and the call reaches the
    invocation, the command line handed to the tool holds the output
    file wherever the template holds [INPUT]. *)
Theorem substitution_passes_are_sequential
    (tool : Tool) (out_file : string) (s : Sys) (i : nat) :
  reaches_invocation s "OUTPUT" out_file = true ->
  (_executable (self s) ++ _arguments (self s))%list !! i
    = Some ProvPyConverter.INPUT ->
  let s' := (ProvPyConverter.convert tool "OUTPUT" out_file s).2 in
  (forall local_format in_file out_file',
     ProvPyConverter.build_command_line (self s) local_format in_file out_file'
     = map (fun token =>
              let x := if decide (token = "FORMAT") then local_format else token in
              let x := if decide (x = "INPUT") then in_file else x in
              if decide (x = "OUTPUT") then out_file' else x)
           (_executable (self s) ++ _arguments (self s))%list) /\
  exists command_line,
    invocations (world s') = (invocations (world s) ++ [command_line])%list /\
    command_line !! i = Some out_file.
Proof.
  intros Hreach Hi s'. split.
  - intros. apply build_command_line_map.
  - exists (command_line_of (self s) "OUTPUT" out_file). split.
    + subst s'. rewrite (convert_reached _ _ _ _ Hreach). cbv zeta.
      destruct (tool _ _) as [outcome files]. done.
    + unfold command_line_of. rewrite build_command_line_lookup, Hi.
      reflexivity.
Qed.

Lemma substitution_passes_are_sequential_witness :
  exists command_line,
    invocations
      (world (ProvPyConverter.convert tool_writes_output "OUTPUT" "b.provx"
                (mkSys (set_input_formats (VList [""]) documented_converter)
                       (mkWorld (fun p => bool_decide (p = "OUTPUT")) [] []))).2)
    = ([] ++ [command_line])%list /\
    command_line !! 3 = Some "b.provx".
Proof.
  exact (proj2 (substitution_passes_are_sequential tool_writes_output "b.provx"
                  (mkSys (set_input_formats (VList [""]) documented_converter)
                         (mkWorld (fun p => bool_decide (p = "OUTPUT")) [] []))
                  3 eq_refl eq_refl)).
Defined.

Lemma check_formats_message_witness :
  (Converter.check_formats "json" "xml" documented_converter).1
  = Raise (ConversionError "Unsupported input format: xml").
Proof.
  exact (proj1 (proj2 (check_formats_message documented_converter "json" "xml")
                  eq_refl eq_refl)).
Defined.

(** ** Configuration *)

(** [ConfigurableComponent.configure] always succeeds and stores the
    configuration. *)
Lemma base_configure_run (config : gmap string value) (c : Component) :
  ConfigurableComponent.configure config c = (Ok tt, set_config config c).
Proof. done. Qed.

Lemma command_line_configure_run (config : gmap string value) (c : Component) :
  CommandLineComponent.configure config c =
  match config !! CommandLineComponent.EXECUTABLE,
        config !! CommandLineComponent.ARGUMENTS with
  | Some executable, Some arguments =>
      (Ok tt,
       set_arguments (CommandLineComponent.argument_tokens arguments)
         (set_executable (CommandLineComponent.executable_tokens executable)
            (set_config config c)))
  | Some _, None =>
      (Raise (ConfigError CommandLineComponent.ARGUMENTS), set_config config c)
  | None, _ =>
      (Raise (ConfigError CommandLineComponent.EXECUTABLE), set_config config c)
  end.
Proof.
  unfold CommandLineComponent.configure.
  unfold bind at 1. rewrite base_configure_run.
  unfold bind at 1. rewrite check_configuration_run. simpl.
  unfold missing_key, getitem.
  destruct (config !! CommandLineComponent.EXECUTABLE) as [executable|] eqn:He.
  - rewrite bool_decide_eq_true_2 by eauto. simpl.
    destruct (config !! CommandLineComponent.ARGUMENTS) as [arguments|] eqn:Ha.
    + rewrite bool_decide_eq_true_2 by eauto. done.
    + rewrite bool_decide_eq_false_2 by (by intros [? ?]). done.
  - rewrite bool_decide_eq_false_2 by (by intros [? ?]). done.
Qed.

(** The placeholder check at the end of [ProvPyConverter.configure]. *)
Lemma token_check_run (c : Component) :
  for_each [ProvPyConverter.FORMAT; ProvPyConverter.INPUT; ProvPyConverter.OUTPUT]
    (fun token =>
       c <- get ;;
       if negb (list_contains token (_arguments c)) then
         raise (ConfigError ("Missing token " +:+ token))
       else ret tt) c =
  (match first_missing_token (_arguments c) with
   | Some token => Raise (ConfigError (missing_token_message token))
   | None => Ok tt
   end, c).
Proof.
  unfold first_missing_token. simpl. run.
  destruct (list_contains ProvPyConverter.FORMAT (_arguments c)); simpl; [|done].
  destruct (list_contains ProvPyConverter.INPUT (_arguments c)); simpl; [|done].
  destruct (list_contains ProvPyConverter.OUTPUT (_arguments c)); done.
Qed.

Lemma provpy_configure_run (FORMATS : list string) (config : gmap string value)
    (c : Component) :
  ProvPyConverter.configure FORMATS config c =
  match Converter.configure FORMATS CommandLineComponent.configure config c with
  | (Ok _, c1) =>
      (match first_missing_token (_arguments c1) with
       | Some token => Raise (ConfigError (missing_token_message token))
       | None => Ok tt
       end, c1)
  | (Raise e, c1) => (Raise e, c1)
  end.
Proof.
  unfold ProvPyConverter.configure. unfold bind at 1.
  destruct (Converter.configure _ _ _ _) as [[[]|e] c1]; [|done].
  apply token_check_run.
Qed.

Lemma first_missing_token_cases (arguments : list string) :
  first_missing_token arguments =
  if decide (ProvPyConverter.FORMAT ∈ arguments) then
    if decide (ProvPyConverter.INPUT ∈ arguments) then
      if decide (ProvPyConverter.OUTPUT ∈ arguments) then None
      else Some ProvPyConverter.OUTPUT
    else Some ProvPyConverter.INPUT
  else Some ProvPyConverter.FORMAT.
Proof.
  unfold first_missing_token, list_contains. simpl.
  repeat case_decide;
    repeat first [rewrite bool_decide_eq_true_2 by done
                 |rewrite bool_decide_eq_false_2 by done]; done.
Qed.

(** [convert] raises nothing but [ConversionError] and [OSError]. *)
Lemma convert_raises (tool : Tool) (in_file out_file : string) (s : Sys) (e : exn) :
  (ProvPyConverter.convert tool in_file out_file s).1 = Raise e ->
  e = OSError \/ exists msg, e = ConversionError msg.
Proof.
  destruct (reaches_invocation s in_file out_file) eqn:Hreach.
  - rewrite (convert_reached _ _ _ _ Hreach). cbv zeta.
    destruct (tool _ _) as [[return_code|] files]; cbn [fst].
    + destruct (decide (return_code ≠ 0%Z)); [intros [= <-]; eauto|].
      destruct (files out_file); [done|intros [= <-]; eauto].
    + intros [= <-]. eauto.
  - destruct (convert_refused tool _ _ _ Hreach) as [msg ->].
    intros [= <-]. eauto.
Qed.

Lemma unrecognised_iff (FORMATS : list string) (format : string) :
  unrecognised FORMATS format = true <-> format ∉ FORMATS.
Proof.
  unfold unrecognised, list_contains. rewrite negb_true_iff.
  apply bool_decide_eq_false.
Qed.

Lemma first_unrecognised_none (FORMATS : list string) (input output : value) :
  (forall format, format ∈ py_iter input -> format ∈ FORMATS) ->
  (forall format, format ∈ py_iter output -> format ∈ FORMATS) ->
  first_unrecognised FORMATS input output = None.
Proof.
  intros Hin Hout. unfold first_unrecognised.
  assert (Hok : forall l : list string,
             (forall format, format ∈ l -> format ∈ FORMATS) ->
             List.find (unrecognised FORMATS) l = None).
  { intros l Hl. apply find_none_iff. intros x Hx.
    destruct (unrecognised FORMATS x) eqn:E; [|done].
    apply unrecognised_iff in E. destruct E. by apply Hl. }
  rewrite (Hok _ Hin), (Hok _ Hout). done.
Qed.

(** What [first_unrecognised] finds is an unrecognised format under the
    key it names. *)
Lemma first_unrecognised_some (FORMATS : list string) (input output : value)
    (key format : string) :
  first_unrecognised FORMATS input output = Some (key, format) ->
  (format ∉ FORMATS) /\
  ((key = Converter.INPUT_FORMATS /\ format ∈ py_iter input) \/
   (key = Converter.OUTPUT_FORMATS /\ format ∈ py_iter output)).
Proof.
  unfold first_unrecognised.
  destruct (List.find _ (py_iter input)) as [x|] eqn:Ei.
  - intros [= <- <-]. apply find_some_elem in Ei as [Hx Hb].
    apply unrecognised_iff in Hb. eauto.
  - destruct (List.find _ (py_iter output)) as [x|] eqn:Eo; [|done].
    intros [= <- <-]. apply find_some_elem in Eo as [Hx Hb].
    apply unrecognised_iff in Hb. eauto.
Qed.

Lemma first_unrecognised_exists (FORMATS : list string) (input output : value)
    (format : string) :
  format ∉ FORMATS ->
  format ∈ py_iter input \/ format ∈ py_iter output ->
  exists key format', first_unrecognised FORMATS input output = Some (key, format').
Proof.
  intros Hbad Hin. apply unrecognised_iff in Hbad. unfold first_unrecognised.
  destruct (List.find _ (py_iter input)) as [x|] eqn:Ei; [eauto|].
  destruct (List.find _ (py_iter output)) as [x|] eqn:Eo; [eauto|].
  rewrite find_none_iff in Ei. rewrite find_none_iff in Eo.
  destruct Hin as [Hin|Hin].
  - rewrite (Ei _ Hin) in Hbad. done.
  - rewrite (Eo _ Hin) in Hbad. done.
Qed.

(** Every path through [Converter.configure], whatever the inherited
    [configure] does. *)
Lemma configure_cases (FORMATS : list string)
    (super_configure : gmap string value -> M Component unit)
    (config : gmap string value) (c : Component) :
  Converter.configure FORMATS super_configure config c =
  match super_configure config c with
  | (Raise e, c1) => (Raise e, c1)
  | (Ok _, c1) =>
      match List.find (missing_key (_config c1))
              [Converter.INPUT_FORMATS; Converter.OUTPUT_FORMATS] with
      | Some key => (Raise (ConfigError key), c1)
      | None =>
          match config !! Converter.INPUT_FORMATS with
          | None => (Raise (KeyError Converter.INPUT_FORMATS), c1)
          | Some input =>
              match List.find (unrecognised FORMATS) (py_iter input) with
              | Some format =>
                  (Raise (ConfigError
                            (unrecognised_message Converter.INPUT_FORMATS format)), c1)
              | None =>
                  match config !! Converter.OUTPUT_FORMATS with
                  | None => (Raise (KeyError Converter.OUTPUT_FORMATS), c1)
                  | Some output =>
                      match List.find (unrecognised FORMATS) (py_iter output) with
                      | Some format =>
                          (Raise (ConfigError
                                    (unrecognised_message Converter.OUTPUT_FORMATS
                                       format)), c1)
                      | None =>
                          (Ok tt, set_output_formats output (set_input_formats input c1))
                      end
                  end
              end
          end
      end
  end.
Proof.
  unfold Converter.configure. unfold bind at 1.
  destruct (super_configure config c) as [[[]|e] c1]; [|done].
  unfold bind at 1. rewrite check_configuration_run.
  destruct (List.find _ _) as [key|]; [done|].
  cbn [for_each].
  unfold bind at 1. unfold bind at 1. unfold bind at 1.
  unfold getitem at 1.
  destruct (config !! Converter.INPUT_FORMATS) as [input|] eqn:Hin; [|done].
  unfold ret at 1.
  rewrite (for_each_find (unrecognised FORMATS)
             (fun format => ConfigError (unrecognised_message Converter.INPUT_FORMATS format))).
  destruct (List.find _ (py_iter input)); [done|].
  unfold bind at 1. unfold bind at 1.
  unfold getitem at 1.
  destruct (config !! Converter.OUTPUT_FORMATS) as [output|] eqn:Hout; [|done].
  unfold ret at 1.
  rewrite (for_each_find (unrecognised FORMATS)
             (fun format => ConfigError (unrecognised_message Converter.OUTPUT_FORMATS format))).
  destruct (List.find _ (py_iter output)); [done|].
  unfold getitem. rewrite Hin, Hout. done.
Qed.

Lemma find_none_registered (FORMATS : list string) (l : list string) :
  List.find (unrecognised FORMATS) l = None ->
  Forall (fun format => format ∈ FORMATS) l.
Proof.
  intros H. apply Forall_forall. intros x Hx.
  rewrite find_none_iff in H. specialize (H x Hx).
  destruct (decide (x ∈ FORMATS)) as [Hin|Hout]; [done|].
  apply unrecognised_iff in Hout. congruence.
Qed.

(** What a successful [Converter.configure] has established. *)
Lemma configure_accepted (FORMATS : list string)
    (super_configure : gmap string value -> M Component unit)
    (config : gmap string value) (c c' : Component) :
  Converter.configure FORMATS super_configure config c = (Ok tt, c') ->
  exists c1 input output,
    super_configure config c = (Ok tt, c1) /\
    c' = set_output_formats output (set_input_formats input c1) /\
    config !! Converter.INPUT_FORMATS = Some input /\
    config !! Converter.OUTPUT_FORMATS = Some output /\
    Forall (fun format => format ∈ FORMATS) (py_iter input) /\
    Forall (fun format => format ∈ FORMATS) (py_iter output).
Proof.
  rewrite configure_cases.
  destruct (super_configure config c) as [[[]|e] c1]; [|done].
  destruct (List.find _ _) as [key|]; [done|].
  destruct (config !! Converter.INPUT_FORMATS) as [input|]; [|done].
  destruct (List.find _ (py_iter input)) eqn:Ei; [done|].
  destruct (config !! Converter.OUTPUT_FORMATS) as [output|]; [|done].
  destruct (List.find _ (py_iter output)) eqn:Eo; [done|].
  intros [= <-]. exists c1, input, output.
  repeat split; try done; by apply find_none_registered.
Qed.

(** A [Converter.configure] that raises has stored nothing. *)
Lemma configure_refused (FORMATS : list string)
    (super_configure : gmap string value -> M Component unit)
    (config : gmap string value) (c c' : Component) (e : exn) :
  Converter.configure FORMATS super_configure config c = (Raise e, c') ->
  c' = (super_configure config c).2.
Proof.
  rewrite configure_cases.
  destruct (super_configure config c) as [[[]|e1] c1]; cbn [snd];
    [|by intros [= _ <-]].
  destruct (List.find _ _) as [key|]; [by intros [= _ <-]|].
  destruct (config !! Converter.INPUT_FORMATS) as [input|]; [|by intros [= _ <-]].
  destruct (List.find _ (py_iter input)); [by intros [= _ <-]|].
  destruct (config !! Converter.OUTPUT_FORMATS) as [output|]; [|by intros [= _ <-]].
  destruct (List.find _ (py_iter output)); [by intros [= _ <-]|done].
Qed.

(** When [Converter.configure], run on top of
    [CommandLineComponent.configure], accepts a configuration, the
    arguments it leaves in the component are the tokens of the
    configuration's [arguments]. *)
Lemma inherited_configure_arguments (FORMATS : list string)
    (config : gmap string value) (c c1 : Component) (arguments : value) :
  config !! CommandLineComponent.ARGUMENTS = Some arguments ->
  Converter.configure FORMATS CommandLineComponent.configure config c = (Ok tt, c1) ->
  _arguments c1 = CommandLineComponent.argument_tokens arguments.
Proof.
  intros Ha H.
  pose proof (command_line_configure_run config c) as Hsuper. rewrite Ha in Hsuper.
  destruct (config !! CommandLineComponent.EXECUTABLE) as [executable|] eqn:He.
  - destruct (config !! Converter.INPUT_FORMATS) as [input|] eqn:Hin;
      [destruct (config !! Converter.OUTPUT_FORMATS) as [output|] eqn:Hout|].
    + rewrite (configure_run FORMATS _ config c _ input output Hsuper eq_refl Hin Hout)
        in H.
      destruct (first_unrecognised FORMATS input output) as [[key format]|];
        [done|]. by injection H as <-.
    + rewrite (configure_missing_key FORMATS _ config c _ Converter.OUTPUT_FORMATS
                 Hsuper eq_refl) in H; [done|].
      simpl. unfold missing_key. rewrite Hin, Hout.
      rewrite bool_decide_eq_true_2 by eauto.
      rewrite bool_decide_eq_false_2 by (by intros [? ?]). done.
    + rewrite (configure_missing_key FORMATS _ config c _ Converter.INPUT_FORMATS
                 Hsuper eq_refl) in H; [done|].
      simpl. unfold missing_key. rewrite Hin.
      rewrite bool_decide_eq_false_2 by (by intros [? ?]). done.
  - unfold Converter.configure in H. unfold bind at 1 in H.
    rewrite Hsuper in H. done.
Qed.

(** The inherited [configure] of a [ProvPyConverter] raises nothing but
    [ConfigError]. *)
Lemma inherited_configure_raises (FORMATS : list string)
    (config : gmap string value) (c c1 : Component) (e : exn) :
  Converter.configure FORMATS CommandLineComponent.configure config c = (Raise e, c1) ->
  exists msg, e = ConfigError msg.
Proof.
  intros H.
  pose proof (command_line_configure_run config c) as Hsuper.
  destruct (config !! CommandLineComponent.EXECUTABLE) as [executable|] eqn:He;
    [destruct (config !! CommandLineComponent.ARGUMENTS) as [arguments|] eqn:Ha|].
  - destruct (config !! Converter.INPUT_FORMATS) as [input|] eqn:Hin;
      [destruct (config !! Converter.OUTPUT_FORMATS) as [output|] eqn:Hout|].
    + rewrite (configure_run FORMATS _ config c _ input output Hsuper eq_refl Hin Hout)
        in H.
      destruct (first_unrecognised FORMATS input output) as [[key format]|];
        [|done]. injection H as <- _. eauto.
    + rewrite (configure_missing_key FORMATS _ config c _ Converter.OUTPUT_FORMATS
                 Hsuper eq_refl) in H; [injection H as <- _; eauto|].
      simpl. unfold missing_key. rewrite Hin, Hout.
      rewrite bool_decide_eq_true_2 by eauto.
      rewrite bool_decide_eq_false_2 by (by intros [? ?]). done.
    + rewrite (configure_missing_key FORMATS _ config c _ Converter.INPUT_FORMATS
                 Hsuper eq_refl) in H; [injection H as <- _; eauto|].
      simpl. unfold missing_key. rewrite Hin.
      rewrite bool_decide_eq_false_2 by (by intros [? ?]). done.
  - unfold Converter.configure in H. unfold bind at 1 in H.
    rewrite Hsuper in H. injection H as <- _. eauto.
  - unfold Converter.configure in H. unfold bind at 1 in H.
    rewrite Hsuper in H. injection H as <- _. eauto.
Qed.

Lemma keys_present (config : gmap string value) :
  List.find (missing_key config) [Converter.INPUT_FORMATS; Converter.OUTPUT_FORMATS]
    = None ->
  is_Some (config !! Converter.INPUT_FORMATS) /\
  is_Some (config !! Converter.OUTPUT_FORMATS).
Proof.
  cbn [List.find]. unfold missing_key.
  destruct (config !! Converter.INPUT_FORMATS) as [input|].
  - rewrite bool_decide_eq_true_2 by eauto. cbn [negb].
    destruct (config !! Converter.OUTPUT_FORMATS) as [output|].
    + eauto.
    + rewrite bool_decide_eq_false_2 by (by intros [? ?]). done.
  - rewrite bool_decide_eq_false_2 by (by intros [? ?]). done.
Qed.

(** On a plain [Converter], [configure] raises nothing but
    [ConfigError]. *)
Lemma plain_configure_raises (FORMATS : list string)
    (config : gmap string value) (c c1 : Component) (e : exn) :
  Converter.configure FORMATS ConfigurableComponent.configure config c = (Raise e, c1) ->
  exists msg, e = ConfigError msg.
Proof.
  rewrite configure_cases, base_configure_run.
  change (_config (set_config config c)) with config.
  destruct (List.find _ _) as [key|] eqn:Hkeys; [intros [= <- _]; eauto|].
  destruct (keys_present _ Hkeys) as [[input ->] [output ->]].
  destruct (List.find _ (py_iter input)); [intros [= <- _]; eauto|].
  destruct (List.find _ (py_iter output)); [intros [= <- _]; eauto|done].
Qed.

(** A configuration with an unrecognised format under one of the two
    keys is never accepted, whatever the inherited [configure]. *)
Lemma configure_never_accepts_unrecognised (FORMATS : list string)
    (super_configure : gmap string value -> M Component unit)
    (config : gmap string value) (c : Component)
    (key : string) (formats : value) (format : string) :
  key = Converter.INPUT_FORMATS \/ key = Converter.OUTPUT_FORMATS ->
  config !! key = Some formats ->
  format ∈ py_iter formats ->
  format ∉ FORMATS ->
  exists e,
    Converter.configure FORMATS super_configure config c
    = (Raise e, (super_configure config c).2).
Proof.
  intros Hkey Hformats Hformat Hbad.
  destruct (Converter.configure FORMATS super_configure config c)
    as [[[]|e] c'] eqn:Hr.
  - exfalso.
    destruct (configure_accepted _ _ _ _ _ Hr)
      as (c1 & input & output & _ & _ & Hin & Hout & Hi & Ho).
    rewrite Forall_forall in Hi. rewrite Forall_forall in Ho.
    destruct Hkey as [-> | ->].
    + rewrite Hin in Hformats. injection Hformats as <-. by apply Hbad, Hi.
    + rewrite Hout in Hformats. injection Hformats as <-. by apply Hbad, Ho.
  - exists e. by rewrite (configure_refused _ _ _ _ _ _ Hr).
Qed.

(** C6: for a configuration that holds both keys, with every format
    under them in the registry, [Converter.configure] succeeds, and the
    properties [input_formats] and [output_formats] then give back the
    very values of the configuration: same elements, same order, same
    repetitions. *)
Theorem configure_stores_formats (FORMATS : list string)
    (config : gmap string value) (c : Component) (input output : value) :
  config !! Converter.INPUT_FORMATS = Some input ->
  config !! Converter.OUTPUT_FORMATS = Some output ->
  Forall (fun format => format ∈ FORMATS) (py_iter input) ->
  Forall (fun format => format ∈ FORMATS) (py_iter output) ->
  let r := Converter.configure FORMATS ConfigurableComponent.configure config c in
  r.1 = Ok tt /\
  Converter.input_formats r.2 = input /\
  Converter.output_formats r.2 = output.
Proof.
  intros Hin Hout Hi Ho r. subst r.
  rewrite Forall_forall in Hi. rewrite Forall_forall in Ho.
  rewrite (configure_run FORMATS _ config c _ input output
             (base_configure_run config c) eq_refl Hin Hout).
  rewrite (first_unrecognised_none _ _ _ Hi Ho). done.
Qed.

Lemma configure_stores_formats_witness :
  let config : gmap string value :=
    {[ "input-formats" := VList ["json"; "json"];
       "output-formats" := VList ["provx"; "json"; "provn"; "provx"] ]} in
  let r := Converter.configure sample_FORMATS ConfigurableComponent.configure
             config Converter.init in
  r.1 = Ok tt /\
  Converter.input_formats r.2 = VList ["json"; "json"] /\
  Converter.output_formats r.2 = VList ["provx"; "json"; "provn"; "provx"].
Proof.
  apply (configure_stores_formats sample_FORMATS
           {[ "input-formats" := VList ["json"; "json"];
              "output-formats" := VList ["provx"; "json"; "provn"; "provx"] ]}
           Converter.init (VList ["json"; "json"])
           (VList ["provx"; "json"; "provn"; "provx"]));
    [reflexivity|reflexivity|..];
    apply (bool_decide_unpack _); vm_compute; exact I.
Defined.

(** C7, as amended: for every configuration in which the value under
    [input-formats] or [output-formats] holds an identifier that is not
    in the registry, [Converter.configure] raises, at configuration
    time, and stores no formats: the converter is as the inherited
    [configure] left it.  If the inherited [configure] raises, its
    exception is the one raised.  Otherwise, the inherited [configure]
    having stored the configuration: if [input-formats] or
    [output-formats] is missing, the required-key check comes first and
    the [ConfigError] names the first missing key; if both keys are
    present, the message is [Unrecognised format in ], the key, a colon
    and the format, for the first unrecognised format met (input formats
    before output formats).  On a plain [Converter] and on a
    [ProvPyConverter] the exception is always a [ConfigError], never a
    [ConversionError].  [convert] never raises a [ConfigError]. *)
Theorem configure_unrecognised_format (FORMATS : list string)
    (super_configure : gmap string value -> M Component unit)
    (config : gmap string value) (c : Component)
    (key : string) (formats : value) (format : string) :
  key = Converter.INPUT_FORMATS \/ key = Converter.OUTPUT_FORMATS ->
  config !! key = Some formats ->
  format ∈ py_iter formats ->
  format ∉ FORMATS ->
  let r := Converter.configure FORMATS super_configure config c in
  let inherited := super_configure config c in
  (exists e, r.1 = Raise e) /\
  r.2 = inherited.2 /\
  (forall e, inherited.1 = Raise e -> r.1 = Raise e) /\
  (inherited.1 = Ok tt -> _config inherited.2 = config ->
     (config !! "input-formats" = None ->
        r.1 = Raise (ConfigError "input-formats")) /\
     (is_Some (config !! "input-formats") -> config !! "output-formats" = None ->
        r.1 = Raise (ConfigError "output-formats")) /\
     (forall input output,
        config !! "input-formats" = Some input ->
        config !! "output-formats" = Some output ->
        exists key' formats' format',
          r.1 = Raise (ConfigError
                         ("Unrecognised format in " +:+ key' +:+ ":" +:+ format')) /\
          first_unrecognised FORMATS input output = Some (key', format') /\
          (key' = "input-formats" \/ key' = "output-formats") /\
          config !! key' = Some formats' /\
          format' ∈ py_iter formats' /\
          format' ∉ FORMATS)) /\
  (super_configure = ConfigurableComponent.configure \/
   super_configure = CommandLineComponent.configure ->
     exists msg, r.1 = Raise (ConfigError msg)) /\
  (forall tool in_file out_file s msg,
     (ProvPyConverter.convert tool in_file out_file s).1 ≠ Raise (ConfigError msg)).
Proof.
  intros Hkey Hformats Hformat Hbad r inherited.
  destruct (configure_never_accepts_unrecognised FORMATS super_configure config c
              key formats format Hkey Hformats Hformat Hbad) as [e Hr].
  fold r inherited in Hr.
  split; [exists e; by rewrite Hr|]. split; [by rewrite Hr|].
  split; [|split; [|split]].
  - (* the inherited configure raises *)
    intros e' He'. subst r inherited.
    rewrite configure_cases.
    destruct (super_configure config c) as [[[]|e1] c1]; [done|].
    by injection He' as ->.
  - (* the inherited configure has stored the configuration *)
    intros Hok Hconfig.
    assert (Hsuper : super_configure config c = (Ok tt, inherited.2)).
    { subst inherited. destruct (super_configure config c) as [r1 c1].
      cbn [fst snd] in *. by subst r1. }
    split; [|split].
    + intros Hin. subst r.
      rewrite (configure_missing_key FORMATS _ config c _ Converter.INPUT_FORMATS
                 Hsuper Hconfig); [done|].
      cbn [List.find]. unfold missing_key.
      change Converter.INPUT_FORMATS with "input-formats". rewrite Hin.
      rewrite bool_decide_eq_false_2 by (by intros [? ?]). done.
    + intros [input Hin] Hout. subst r.
      rewrite (configure_missing_key FORMATS _ config c _ Converter.OUTPUT_FORMATS
                 Hsuper Hconfig); [done|].
      cbn [List.find]. unfold missing_key.
      change Converter.INPUT_FORMATS with "input-formats".
      change Converter.OUTPUT_FORMATS with "output-formats". rewrite Hin, Hout.
      rewrite bool_decide_eq_true_2 by eauto.
      rewrite bool_decide_eq_false_2 by (by intros [? ?]). done.
    + intros input output Hin Hout.
      assert (Hfirst : exists key' format',
                 first_unrecognised FORMATS input output = Some (key', format')).
      { apply (first_unrecognised_exists _ _ _ format Hbad).
        destruct Hkey as [-> | ->].
        - left. change Converter.INPUT_FORMATS with "input-formats" in Hformats.
          rewrite Hin in Hformats. by injection Hformats as ->.
        - right. change Converter.OUTPUT_FORMATS with "output-formats" in Hformats.
          rewrite Hout in Hformats. by injection Hformats as ->. }
      destruct Hfirst as (key' & format' & Hfirst).
      subst r.
      rewrite (configure_run FORMATS _ config c _ input output
                 Hsuper Hconfig Hin Hout), Hfirst.
      cbn [fst].
      destruct (first_unrecognised_some _ _ _ _ _ Hfirst)
        as [Hbad' [[-> Hf]|[-> Hf]]].
      * exists Converter.INPUT_FORMATS, input, format'. eauto 10.
      * exists Converter.OUTPUT_FORMATS, output, format'. eauto 10.
  - (* the two classes of the sources *)
    intros Hclass. subst r inherited.
    destruct (Converter.configure FORMATS super_configure config c)
      as [r1 c1] eqn:Hrun.
    cbn [fst snd] in Hr. injection Hr as -> _. cbn [fst].
    destruct Hclass as [-> | ->].
    + destruct (plain_configure_raises _ _ _ _ _ Hrun) as [msg ->]. eauto.
    + destruct (inherited_configure_raises _ _ _ _ _ Hrun) as [msg ->]. eauto.
  - intros tool in_file out_file s msg H.
    apply convert_raises in H as [H|[msg' H]]; discriminate.
Qed.

Lemma configure_unrecognised_format_witness :
  let config : gmap string value :=
    {[ "input-formats" := VList ["json"];
       "output-formats" := VList ["provn"; "pdf"; "svg"] ]} in
  (Converter.configure sample_FORMATS ConfigurableComponent.configure
     config Converter.init).1
  = Raise (ConfigError "Unrecognised format in output-formats:pdf").
Proof.
  intros config.
  assert (Hin : "svg" ∈ py_iter (VList ["provn"; "pdf"; "svg"])).
  { apply (bool_decide_unpack _). vm_compute. exact I. }
  assert (Hbad : "svg" ∉ sample_FORMATS).
  { apply (bool_decide_unpack _). vm_compute. exact I. }
  destruct (configure_unrecognised_format sample_FORMATS
              ConfigurableComponent.configure config Converter.init
              "output-formats" (VList ["provn"; "pdf"; "svg"]) "svg"
              (or_intror eq_refl) eq_refl Hin Hbad)
    as (_ & _ & _ & H & _).
  destruct (H eq_refl eq_refl) as (_ & _ & H').
  destruct (H' (VList ["json"]) (VList ["provn"; "pdf"; "svg"]) eq_refl eq_refl)
    as (key' & formats' & format' & Hr & Hfirst & _).
  rewrite Hr. injection Hfirst as <- <-. reflexivity.
Defined.

(** C7 as stated fails: a configuration whose input formats hold an
    unrecognised identifier, and which lacks [output-formats], is refused
    for the missing key; the error names neither the offending key nor
    the format. *)
Lemma configure_names_missing_key_instead :
  let config : gmap string value := {[ "input-formats" := VList ["bad"] ]} in
  let r := Converter.configure sample_FORMATS ConfigurableComponent.configure
             config Converter.init in
  config !! "input-formats" = Some (VList ["bad"]) /\
  list_contains "bad" sample_FORMATS = false /\
  r.1 = Raise (ConfigError "output-formats") /\
  str_contains "bad" "output-formats" = false /\
  str_contains "input-formats" "output-formats" = false.
Proof. vm_compute. repeat split. Qed.

(** C8, as amended: for every configuration whose argument tokens lack
    one of [FORMAT], [INPUT], [OUTPUT], [ProvPyConverter.configure]
    raises a [ConfigError].  When the inherited configuration accepts
    the configuration, the error is [Missing token ] followed by the
    first placeholder, in the order FORMAT, INPUT, OUTPUT, that the
    tokens lack; when all three are present, however often,
    [configure] succeeds.  When the inherited configuration refuses the
    configuration, its exception, a [ConfigError], is the one raised,
    with the converter as the inherited configuration left it: the
    placeholders are not checked. *)
Theorem configure_checks_placeholders (FORMATS : list string)
    (config : gmap string value) (c : Component) :
  let r := ProvPyConverter.configure FORMATS config c in
  (forall arguments token,
     config !! "arguments" = Some arguments ->
     token ∈ [ProvPyConverter.FORMAT; ProvPyConverter.INPUT; ProvPyConverter.OUTPUT] ->
     token ∉ CommandLineComponent.argument_tokens arguments ->
     exists msg, r.1 = Raise (ConfigError msg)) /\
  (forall c1,
     Converter.configure FORMATS CommandLineComponent.configure config c = (Ok tt, c1) ->
     r.2 = c1 /\
     ("FORMAT" ∉ _arguments c1 ->
        r.1 = Raise (ConfigError "Missing token FORMAT")) /\
     ("FORMAT" ∈ _arguments c1 -> "INPUT" ∉ _arguments c1 ->
        r.1 = Raise (ConfigError "Missing token INPUT")) /\
     ("FORMAT" ∈ _arguments c1 -> "INPUT" ∈ _arguments c1 ->
      "OUTPUT" ∉ _arguments c1 ->
        r.1 = Raise (ConfigError "Missing token OUTPUT")) /\
     ("FORMAT" ∈ _arguments c1 -> "INPUT" ∈ _arguments c1 ->
      "OUTPUT" ∈ _arguments c1 ->
        r.1 = Ok tt)) /\
  (forall e c1,
     Converter.configure FORMATS CommandLineComponent.configure config c = (Raise e, c1) ->
     r = (Raise e, c1) /\ exists msg, e = ConfigError msg).
Proof.
  intros r. subst r. rewrite provpy_configure_run. split; [|split].
  - intros arguments token Ha Htoken Hlacks.
    destruct (Converter.configure _ _ _ _) as [[[]|e] c1] eqn:Hinherited.
    + rewrite (inherited_configure_arguments _ _ _ _ _ Ha Hinherited).
      rewrite first_missing_token_cases. cbn [fst].
      repeat case_decide; eauto.
      exfalso. apply Hlacks.
      repeat (apply elem_of_cons in Htoken as [->|Htoken]; [done|]).
      by apply elem_of_nil in Htoken.
    + destruct (inherited_configure_raises _ _ _ _ _ Hinherited) as [msg ->].
      eauto.
  - intros c1 ->. rewrite first_missing_token_cases.
    change ProvPyConverter.FORMAT with "FORMAT".
    change ProvPyConverter.INPUT with "INPUT".
    change ProvPyConverter.OUTPUT with "OUTPUT".
    repeat case_decide; cbn [fst snd]; repeat split; intros; done.
  - intros e c1 Hinherited. rewrite Hinherited. split; [done|].
    exact (inherited_configure_raises _ _ _ _ _ Hinherited).
Qed.

Lemma configure_checks_placeholders_witness :
  (ProvPyConverter.configure sample_FORMATS
     (<[ "arguments" := VStr "-f xFORMAT OUTPUT OUTPUT" ]> documented_config)
     ProvPyConverter.init).1
  = Raise (ConfigError "Missing token FORMAT").
Proof.
  set (config := <[ "arguments" := VStr "-f xFORMAT OUTPUT OUTPUT" ]> documented_config).
  assert (Hinherited :
            Converter.configure sample_FORMATS CommandLineComponent.configure
              config ProvPyConverter.init
            = (Ok tt,
               (Converter.configure sample_FORMATS CommandLineComponent.configure
                  config ProvPyConverter.init).2)).
  { vm_compute. reflexivity. }
  destruct (proj1 (proj2 (configure_checks_placeholders sample_FORMATS config
                            ProvPyConverter.init)) _ Hinherited) as (_ & H & _).
  apply H. apply (bool_decide_unpack _). vm_compute. exact I.
Defined.

(** C8 as stated fails: a configuration whose arguments lack [FORMAT]
    and whose input formats hold an unrecognised identifier is refused by
    the inherited configuration; the error names the format, not the
    missing placeholder. *)
Lemma configure_names_format_instead :
  let config : gmap string value :=
    <[ "arguments" := VStr "-f INPUT OUTPUT" ]>
      (<[ "input-formats" := VList ["bad"] ]> documented_config) in
  let r := ProvPyConverter.configure sample_FORMATS config ProvPyConverter.init in
  config !! "arguments" = Some (VStr "-f INPUT OUTPUT") /\
  CommandLineComponent.argument_tokens (VStr "-f INPUT OUTPUT")
    = ["-f"; "INPUT"; "OUTPUT"] /\
  list_contains "FORMAT" ["-f"; "INPUT"; "OUTPUT"] = false /\
  r.1 = Raise (ConfigError "Unrecognised format in input-formats:bad") /\
  str_contains "FORMAT" "Unrecognised format in input-formats:bad" = false.
Proof. vm_compute. repeat split. Qed.

(** ** The converter is not changed by [convert] *)

(** X1: [convert] reads the converter and never writes it: whatever
    the outcome, the object is as it was before the call, so repeated
    calls accumulate nothing in it. *)
Theorem convert_leaves_converter (tool : Tool) (in_file out_file : string) (s : Sys) :
  self (ProvPyConverter.convert tool in_file out_file s).2 = self s.
Proof.
  destruct (reaches_invocation s in_file out_file) eqn:Hreach.
  - rewrite (convert_reached _ _ _ _ Hreach). cbv zeta.
    destruct (tool _ _) as [outcome files]. done.
  - destruct (convert_refused tool _ _ _ Hreach) as [msg ->]. done.
Qed.

(** * Further properties of the converters *)

(** ** [Converter.configure] over any inherited [configure] *)

Lemma configure_success_formats_aux (FORMATS : list string)
    (config : gmap string value) (c c' : Component) :
  Converter.configure FORMATS CommandLineComponent.configure config c = (Ok tt, c') ->
  config !! Converter.INPUT_FORMATS = Some (Converter.input_formats c') /\
  config !! Converter.OUTPUT_FORMATS = Some (Converter.output_formats c').
Proof.
  intros H.
  destruct (configure_accepted _ _ _ _ _ H)
    as (c1 & input & output & _ & -> & Hin & Hout & _).
  done.
Qed.

(** X2: whatever the inherited [configure] is, when
    [Converter.configure] returns normally the configuration holds both
    keys, the converter's formats are the values under them, and every
    format the converter now holds is in the registry. *)
Theorem configure_success_registers_formats (FORMATS : list string)
    (super_configure : gmap string value -> M Component unit)
    (config : gmap string value) (c c' : Component) :
  Converter.configure FORMATS super_configure config c = (Ok tt, c') ->
  config !! Converter.INPUT_FORMATS = Some (Converter.input_formats c') /\
  config !! Converter.OUTPUT_FORMATS = Some (Converter.output_formats c') /\
  Forall (fun format => format ∈ FORMATS) (py_iter (Converter.input_formats c')) /\
  Forall (fun format => format ∈ FORMATS) (py_iter (Converter.output_formats c')).
Proof.
  intros H.
  destruct (configure_accepted _ _ _ _ _ H)
    as (c1 & input & output & _ & -> & Hin & Hout & Hi & Ho).
  done.
Qed.

Lemma configure_success_registers_formats_witness :
  Forall (fun format => format ∈ sample_FORMATS)
         (py_iter (Converter.output_formats documented_converter)).
Proof.
  assert (H : Converter.configure sample_FORMATS CommandLineComponent.configure
                documented_config ProvPyConverter.init
              = (Ok tt, documented_converter)).
  { vm_compute. reflexivity. }
  exact (proj2 (proj2 (proj2
           (configure_success_registers_formats sample_FORMATS
              CommandLineComponent.configure documented_config
              ProvPyConverter.init documented_converter H)))).
Defined.

(** X3: whatever the inherited [configure] is, when
    [Converter.configure] raises, the converter is exactly as the
    inherited [configure] left it: neither format attribute has been
    assigned, so there is no half-stored pair of formats. *)
Theorem configure_failure_stores_nothing (FORMATS : list string)
    (super_configure : gmap string value -> M Component unit)
    (config : gmap string value) (c c' : Component) (e : exn) :
  Converter.configure FORMATS super_configure config c = (Raise e, c') ->
  c' = (super_configure config c).2 /\
  (super_configure = ConfigurableComponent.configure ->
     Converter.input_formats c' = Converter.input_formats c /\
     Converter.output_formats c' = Converter.output_formats c).
Proof.
  intros H. apply configure_refused in H. split; [done|].
  intros ->. subst c'. done.
Qed.

Lemma configure_failure_stores_nothing_witness :
  let config : gmap string value :=
    {[ "input-formats" := VList ["json"]; "output-formats" := VList ["pdf"] ]} in
  let c := set_input_formats (VList ["provn"]) Converter.init in
  Converter.input_formats
    (Converter.configure sample_FORMATS ConfigurableComponent.configure config c).2
  = VList ["provn"].
Proof.
  intros config c.
  assert (H : Converter.configure sample_FORMATS ConfigurableComponent.configure
                config c
              = (Raise (ConfigError "Unrecognised format in output-formats:pdf"),
                 (Converter.configure sample_FORMATS ConfigurableComponent.configure
                    config c).2)).
  { vm_compute. reflexivity. }
  exact (proj1 (proj2 (configure_failure_stores_nothing _ _ _ _ _ _ H) eq_refl)).
Defined.

(** ** [ProvPyConverter.configure] *)

(** X4: when [ProvPyConverter.configure] returns normally, the argument
    tokens of the converter hold each of [FORMAT], [INPUT] and [OUTPUT],
    and its formats are the configuration's, all of them in the
    registry. *)
Theorem provpy_configure_success (FORMATS : list string)
    (config : gmap string value) (c c' : Component) :
  ProvPyConverter.configure FORMATS config c = (Ok tt, c') ->
  "FORMAT" ∈ _arguments c' /\
  "INPUT" ∈ _arguments c' /\
  "OUTPUT" ∈ _arguments c' /\
  config !! "input-formats" = Some (Converter.input_formats c') /\
  config !! "output-formats" = Some (Converter.output_formats c') /\
  Forall (fun format => format ∈ FORMATS) (py_iter (Converter.input_formats c')) /\
  Forall (fun format => format ∈ FORMATS) (py_iter (Converter.output_formats c')).
Proof.
  rewrite provpy_configure_run.
  destruct (Converter.configure _ _ _ _) as [[[]|e] c1] eqn:Hinherited; [|done].
  rewrite first_missing_token_cases.
  change ProvPyConverter.FORMAT with "FORMAT".
  change ProvPyConverter.INPUT with "INPUT".
  change ProvPyConverter.OUTPUT with "OUTPUT".
  repeat case_decide; try done. intros [= <-].
  destruct (configure_accepted _ _ _ _ _ Hinherited)
    as (c0 & input & output & _ & -> & Hin & Hout & Hi & Ho).
  done.
Qed.

Lemma provpy_configure_success_witness :
  "OUTPUT" ∈ _arguments documented_converter.
Proof.
  assert (H : ProvPyConverter.configure sample_FORMATS documented_config
                ProvPyConverter.init
              = (Ok tt, documented_converter)).
  { vm_compute. reflexivity. }
  exact (proj1 (proj2 (proj2
           (provpy_configure_success sample_FORMATS documented_config
              ProvPyConverter.init documented_converter H)))).
Defined.

(** X5: a [ProvPyConverter.configure] that fails on the placeholder
    check does not undo what the inherited configuration stored: the
    call raises, and the converter holds the formats of the refused
    configuration. *)
Theorem failed_placeholder_check_keeps_formats (FORMATS : list string)
    (config : gmap string value) (c c1 : Component) (token : string) :
  Converter.configure FORMATS CommandLineComponent.configure config c = (Ok tt, c1) ->
  token ∈ ["FORMAT"; "INPUT"; "OUTPUT"] ->
  token ∉ _arguments c1 ->
  let r := ProvPyConverter.configure FORMATS config c in
  (exists missing, r.1 = Raise (ConfigError ("Missing token " +:+ missing))) /\
  config !! "input-formats" = Some (Converter.input_formats r.2) /\
  config !! "output-formats" = Some (Converter.output_formats r.2).
Proof.
  intros Hinherited Htoken Hlacks r. subst r.
  rewrite provpy_configure_run, Hinherited.
  destruct (configure_success_formats_aux FORMATS config c c1 Hinherited) as [Hi Ho].
  rewrite first_missing_token_cases.
  repeat case_decide; cbn [fst snd]; repeat split; eauto.
  exfalso. apply Hlacks.
  repeat (apply elem_of_cons in Htoken as [->|Htoken]; [done|]).
  by apply elem_of_nil in Htoken.
Qed.

Lemma failed_placeholder_check_keeps_formats_witness :
  let config : gmap string value :=
    <[ "arguments" := VStr "-f INPUT OUTPUT" ]> documented_config in
  let r := ProvPyConverter.configure sample_FORMATS config ProvPyConverter.init in
  config !! "input-formats" = Some (Converter.input_formats r.2).
Proof.
  intros config r.
  assert (Hinherited :
            Converter.configure sample_FORMATS CommandLineComponent.configure
              config ProvPyConverter.init
            = (Ok tt,
               (Converter.configure sample_FORMATS CommandLineComponent.configure
                  config ProvPyConverter.init).2)).
  { vm_compute. reflexivity. }
  assert (Htoken : "FORMAT" ∈ ["FORMAT"; "INPUT"; "OUTPUT"]).
  { apply (bool_decide_unpack _). vm_compute. exact I. }
  assert (Hlacks :
            "FORMAT" ∉ _arguments
              (Converter.configure sample_FORMATS CommandLineComponent.configure
                 config ProvPyConverter.init).2).
  { apply (bool_decide_unpack _). vm_compute. exact I. }
  exact (proj1 (proj2 (failed_placeholder_check_keeps_formats sample_FORMATS config
                         ProvPyConverter.init _ "FORMAT"
                         Hinherited Htoken Hlacks))).
Defined.

(** X6: [ProvPyConverter.configure] raises nothing but [ConfigError]:
    the lookups [config[key]] are all behind a required-key check, so no
    [KeyError] escapes, and no [ConversionError] is raised at
    configuration time. *)
Theorem provpy_configure_raises_only_config_error (FORMATS : list string)
    (config : gmap string value) (c : Component) (e : exn) :
  (ProvPyConverter.configure FORMATS config c).1 = Raise e ->
  exists msg, e = ConfigError msg.
Proof.
  rewrite provpy_configure_run.
  destruct (Converter.configure _ _ _ _) as [[[]|e1] c1] eqn:Hinherited.
  - destruct (first_missing_token _); cbn [fst]; [|done].
    intros [= <-]. eauto.
  - cbn [fst]. intros [= <-].
    exact (inherited_configure_raises _ _ _ _ _ Hinherited).
Qed.

Lemma provpy_configure_raises_only_config_error_witness :
  exists msg, ConfigError "input-formats" = ConfigError msg.
Proof.
  exact (provpy_configure_raises_only_config_error sample_FORMATS
           {[ "executable" := VStr "prov-convert";
              "arguments" := VStr "-f FORMAT INPUT OUTPUT" ]}
           ProvPyConverter.init (ConfigError "input-formats") eq_refl).
Defined.

(** ** [ProvPyConverter.convert] *)

(** X7: when the input file exists but a format read off a file
    extension is not supported, [convert] raises the [ConversionError]
    of [check_formats] for that extension, the input format first, and
    leaves the world as it was: nothing is printed and no process is
    invoked. *)
Theorem convert_unsupported_format (tool : Tool) (in_file out_file : string) (s : Sys) :
  isfile (world s) in_file = true ->
  (py_in (extension in_file) (Converter.input_formats (self s)) = false ->
     ProvPyConverter.convert tool in_file out_file s
     = (Raise (ConversionError ("Unsupported input format: " +:+ extension in_file)),
        s)) /\
  (py_in (extension in_file) (Converter.input_formats (self s)) = true ->
   py_in (extension out_file) (Converter.output_formats (self s)) = false ->
     ProvPyConverter.convert tool in_file out_file s
     = (Raise (ConversionError ("Unsupported input format: " +:+ extension out_file)),
        s)).
Proof.
  intros Hfile.
  assert (Hrun : ProvPyConverter.convert tool in_file out_file s
                 = if py_in (extension in_file) (Converter.input_formats (self s))
                      && py_in (extension out_file) (Converter.output_formats (self s))
                   then ProvPyConverter.convert tool in_file out_file s
                   else (Raise (ConversionError
                                  ("Unsupported input format: " +:+
                                   (if py_in (extension in_file)
                                         (Converter.input_formats (self s))
                                    then extension out_file
                                    else extension in_file))), s)).
  { destruct (py_in (extension in_file) _) eqn:Hin;
      [destruct (py_in (extension out_file) _) eqn:Hout|]; cbn [andb]; [done|..].
    - unfold ProvPyConverter.convert.
      unfold bind at 1. rewrite base_convert_run, Hfile.
      unfold bind at 1. unfold on_self at 1. rewrite check_formats_run, Hin, Hout.
      by destruct s.
    - unfold ProvPyConverter.convert.
      unfold bind at 1. rewrite base_convert_run, Hfile.
      unfold bind at 1. unfold on_self at 1. rewrite check_formats_run, Hin.
      by destruct s. }
  split.
  - intros Hin. rewrite Hrun, Hin. done.
  - intros Hin Hout. rewrite Hrun, Hin, Hout. done.
Qed.

Lemma convert_unsupported_format_witness :
  ProvPyConverter.convert tool_writes_output "a.json" "b.pdf"
    (mkSys documented_converter sample_world)
  = (Raise (ConversionError "Unsupported input format: pdf"),
     mkSys documented_converter sample_world).
Proof.
  exact (proj2 (convert_unsupported_format tool_writes_output "a.json" "b.pdf"
                  (mkSys documented_converter sample_world) eq_refl)
           eq_refl eq_refl).
Defined.

(** X8: one call of [convert] invokes the tool at most once.  A call
    that reaches the invocation prints the command line, joined by
    spaces, and hands that same command line to the tool exactly once;
    the files afterwards are those the tool left.  Any other call leaves
    the world untouched. *)
Theorem convert_invokes_at_most_once (tool : Tool) (in_file out_file : string) (s : Sys) :
  let s' := (ProvPyConverter.convert tool in_file out_file s).2 in
  let command_line := command_line_of (self s) in_file out_file in
  if reaches_invocation s in_file out_file then
    invocations (world s') = (invocations (world s) ++ [command_line])%list /\
    stdout (world s') = (stdout (world s) ++ [join " " command_line])%list /\
    isfile (world s') = (tool command_line (isfile (world s))).2
  else s' = s.
Proof.
  cbv zeta. destruct (reaches_invocation s in_file out_file) eqn:Hreach.
  - rewrite (convert_reached _ _ _ _ Hreach). cbv zeta.
    destruct (tool _ _) as [outcome files]. done.
  - destruct (convert_refused tool _ _ _ Hreach) as [msg ->]. done.
Qed.

(** X9: when the process cannot be launched, the [OSError] of
    [subprocess.call] leaves [convert] as it is: it is not turned into a
    [ConversionError], and the output file is not looked at. *)
Theorem convert_launch_failure (tool : Tool) (in_file out_file : string) (s : Sys)
    (files : string -> bool) :
  reaches_invocation s in_file out_file = true ->
  tool (command_line_of (self s) in_file out_file) (isfile (world s))
    = (LaunchFailed, files) ->
  (ProvPyConverter.convert tool in_file out_file s).1 = Raise OSError.
Proof.
  intros Hreach Htool.
  rewrite (convert_reached _ _ _ _ Hreach). cbv zeta. rewrite Htool. done.
Qed.

Lemma convert_launch_failure_witness :
  (ProvPyConverter.convert tool_not_found "a.json" "b.provx"
     (mkSys documented_converter sample_world)).1 = Raise OSError.
Proof.
  exact (convert_launch_failure tool_not_found "a.json" "b.provx"
           (mkSys documented_converter sample_world) (isfile sample_world)
           eq_refl eq_refl).
Defined.

(** ** The command line *)

(** X11: every occurrence of a placeholder is replaced, in the
    executable prefix as well as in the arguments: when the local
    format, the input file and the output file are not themselves
    placeholder names, no token of the command line built is [FORMAT],
    [INPUT] or [OUTPUT]. *)
Theorem no_placeholder_left (c : Component)
    (local_format in_file out_file token : string) :
  local_format ∉ ["FORMAT"; "INPUT"; "OUTPUT"] ->
  in_file ∉ ["FORMAT"; "INPUT"; "OUTPUT"] ->
  out_file ∉ ["FORMAT"; "INPUT"; "OUTPUT"] ->
  token ∈ ProvPyConverter.build_command_line c local_format in_file out_file ->
  token ∉ ["FORMAT"; "INPUT"; "OUTPUT"].
Proof.
  intros Hf Hi Ho Htoken.
  rewrite build_command_line_map in Htoken.
  apply list_elem_of_fmap in Htoken as (x & -> & _).
  unfold substitute_token. cbv zeta.
  change ProvPyConverter.FORMAT with "FORMAT".
  change ProvPyConverter.INPUT with "INPUT".
  change ProvPyConverter.OUTPUT with "OUTPUT".
  repeat case_decide; try done.
  intros Hx. repeat (apply elem_of_cons in Hx as [->|Hx]; [done|]).
  by apply elem_of_nil in Hx.
Qed.

Lemma no_placeholder_left_witness :
  "xml" ∉ ["FORMAT"; "INPUT"; "OUTPUT"].
Proof.
  assert (Hf : "xml" ∉ ["FORMAT"; "INPUT"; "OUTPUT"]).
  { apply (bool_decide_unpack _). vm_compute. exact I. }
  assert (Hi : "a.json" ∉ ["FORMAT"; "INPUT"; "OUTPUT"]).
  { apply (bool_decide_unpack _). vm_compute. exact I. }
  assert (Ho : "b.provx" ∉ ["FORMAT"; "INPUT"; "OUTPUT"]).
  { apply (bool_decide_unpack _). vm_compute. exact I. }
  assert (Ht : "xml" ∈ ProvPyConverter.build_command_line
                         (set_executable ["INPUT"; "run"] documented_converter)
                         "xml" "a.json" "b.provx").
  { apply (bool_decide_unpack _). vm_compute. exact I. }
  exact (no_placeholder_left (set_executable ["INPUT"; "run"] documented_converter)
           "xml" "a.json" "b.provx" "xml" Hf Hi Ho Ht).
Defined.

(** X12: the token [FORMAT] of the template receives the format read
    off the extension of the output file, except that [provx] is handed
    to the tool as [xml]; no other format has an alias.  (A format
    spelled like a later placeholder would be rewritten by the later
    pass, hence the two conditions.) *)
Theorem format_token_receives_local_format (c : Component)
    (in_file out_file : string) (i : nat) :
  (_executable c ++ _arguments c)%list !! i = Some "FORMAT" ->
  extension out_file ≠ "INPUT" ->
  extension out_file ≠ "OUTPUT" ->
  command_line_of c in_file out_file !! i
  = Some (if decide (extension out_file = "provx") then "xml"
          else extension out_file).
Proof.
  intros Hi HI HO. unfold command_line_of.
  rewrite build_command_line_lookup, Hi. cbn [fmap option_fmap option_map].
  f_equal. unfold substitute_token, ProvPyConverter.local_format_of,
    ProvPyConverter.LOCAL_FORMATS, standards.PROVX. cbv zeta.
  rewrite (decide_True (P := "FORMAT" = ProvPyConverter.FORMAT)) by done.
  destruct (decide (extension out_file = "provx")) as [->|Hne].
  - done.
  - rewrite lookup_singleton_ne by done.
    rewrite (decide_False (P := extension out_file = ProvPyConverter.INPUT)) by done.
    rewrite (decide_False (P := extension out_file = ProvPyConverter.OUTPUT)) by done.
    done.
Qed.

Lemma format_token_receives_local_format_witness :
  command_line_of documented_converter "a.json" "b.provn" !! 2 = Some "provn".
Proof.
  apply (format_token_receives_local_format documented_converter
           "a.json" "b.provn" 2); [reflexivity|discriminate..].
Defined.

(** X13: a converter that [ProvPyConverter.configure] accepted always
    passes the output file to the tool, and the input file too unless it
    is literally named [OUTPUT]: both paths are tokens of the command
    line of every call. *)
Theorem configured_command_line_names_files (FORMATS : list string)
    (config : gmap string value) (c c' : Component) (in_file out_file : string) :
  ProvPyConverter.configure FORMATS config c = (Ok tt, c') ->
  out_file ∈ command_line_of c' in_file out_file /\
  (in_file ≠ "OUTPUT" -> in_file ∈ command_line_of c' in_file out_file).
Proof.
  intros H.
  assert (Hargs : "INPUT" ∈ _arguments c' /\ "OUTPUT" ∈ _arguments c').
  { revert H. rewrite provpy_configure_run.
    destruct (Converter.configure _ _ _ _) as [[[]|e] c1]; [|done].
    rewrite first_missing_token_cases.
    change ProvPyConverter.INPUT with "INPUT".
    change ProvPyConverter.OUTPUT with "OUTPUT".
    repeat case_decide; try done. by intros [= <-]. }
  destruct Hargs as [HI HO].
  unfold command_line_of. rewrite build_command_line_map. split.
  - apply list_elem_of_fmap. exists "OUTPUT". split; [|set_solver].
    unfold substitute_token. cbv zeta.
    rewrite (decide_False (P := "OUTPUT" = ProvPyConverter.FORMAT)) by done.
    rewrite (decide_False (P := "OUTPUT" = ProvPyConverter.INPUT)) by done.
    rewrite decide_True by done. done.
  - intros Hne. apply list_elem_of_fmap. exists "INPUT". split; [|set_solver].
    unfold substitute_token. cbv zeta.
    rewrite (decide_False (P := "INPUT" = ProvPyConverter.FORMAT)) by done.
    rewrite (decide_True (P := "INPUT" = ProvPyConverter.INPUT)) by done.
    rewrite decide_False by done. done.
Qed.

Lemma configured_command_line_names_files_witness :
  "b.provx" ∈ command_line_of documented_converter "a.json" "b.provx".
Proof.
  assert (H : ProvPyConverter.configure sample_FORMATS documented_config
                ProvPyConverter.init
              = (Ok tt, documented_converter)).
  { vm_compute. reflexivity. }
  exact (proj1 (configured_command_line_names_files sample_FORMATS
                  documented_config ProvPyConverter.init documented_converter
                  "a.json" "b.provx" H)).
Defined.

(** ** Converters that were never configured *)

(** X14: a converter fresh from [__init__] supports no format:
    [check_formats] raises for every pair of formats, and [convert]
    raises a [ConversionError] for every pair of files without printing
    or invoking anything. *)
Theorem unconfigured_converter_refuses (tool : Tool)
    (a b in_file out_file : string) (w : World) :
  (Converter.check_formats a b ProvPyConverter.init).1
    = Raise (ConversionError ("Unsupported input format: " +:+ a)) /\
  exists msg,
    ProvPyConverter.convert tool in_file out_file (mkSys ProvPyConverter.init w)
    = (Raise (ConversionError msg), mkSys ProvPyConverter.init w).
Proof.
  split.
  - rewrite check_formats_run. done.
  - apply convert_refused. unfold reaches_invocation. cbn [self world].
    cbn. apply andb_false_r.
Qed.

(** ** Repeated conversions *)

(** X15: converting twice in a row with a tool that exits with status
    0 and leaves both files in place succeeds both times: the second
    call hands the tool the very command line of the first, and the
    converter is the same after as before. *)
Theorem convert_twice (tool : Tool) (in_file out_file : string) (s : Sys) :
  reaches_invocation s in_file out_file = true ->
  (forall files, files in_file = true ->
     let r := tool (command_line_of (self s) in_file out_file) files in
     r.1 = Exited 0 /\ r.2 in_file = true /\ r.2 out_file = true) ->
  let r := (ProvPyConverter.convert tool in_file out_file ;;;
            ProvPyConverter.convert tool in_file out_file) s in
  r.1 = Ok tt /\
  self r.2 = self s /\
  invocations (world r.2)
    = (invocations (world s) ++ [command_line_of (self s) in_file out_file;
                                 command_line_of (self s) in_file out_file])%list.
Proof.
  intros Hreach Htool r. subst r.
  assert (Hfile : isfile (world s) in_file = true).
  { unfold reaches_invocation in Hreach.
    apply andb_true_iff in Hreach as [Hreach _].
    by apply andb_true_iff in Hreach as [Hreach _]. }
  unfold bind. rewrite (convert_reached _ _ _ _ Hreach). cbv zeta.
  destruct (Htool (isfile (world s)) Hfile) as (H1 & H2 & H3).
  destruct (tool _ (isfile (world s))) as [outcome files] eqn:Ht.
  cbn [fst snd] in H1, H2, H3. subst outcome.
  rewrite decide_False by (intros H; by apply H). rewrite H3.
  set (s1 := mkSys (self s) _).
  assert (Hreach1 : reaches_invocation s1 in_file out_file = true).
  { unfold reaches_invocation in *. subst s1. cbn [self world isfile after_invocation].
    rewrite H2.
    apply andb_true_iff in Hreach as [Hreach ->].
    apply andb_true_iff in Hreach as [_ ->]. done. }
  rewrite (convert_reached _ _ _ _ Hreach1). cbv zeta.
  subst s1. cbn [self world isfile after_invocation].
  destruct (Htool files H2) as (H1' & H2' & H3').
  destruct (tool _ files) as [outcome' files'].
  cbn [fst snd] in H1', H2', H3'. subst outcome'.
  rewrite decide_False by (intros H; by apply H). rewrite H3'.
  cbn [fst snd self world invocations after_invocation].
  rewrite <- app_assoc. done.
Qed.

Lemma convert_twice_witness :
  ((ProvPyConverter.convert tool_writes_output "a.json" "b.provx" ;;;
    ProvPyConverter.convert tool_writes_output "a.json" "b.provx")
     (mkSys documented_converter sample_world)).1 = Ok tt.
Proof.
  apply (convert_twice tool_writes_output "a.json" "b.provx"
           (mkSys documented_converter sample_world)); [reflexivity|].
  intros files Hfiles. cbv zeta.
  change (command_line_of (self (mkSys documented_converter sample_world))
            "a.json" "b.provx")
    with ["prov-convert"; "-f"; "xml"; "a.json"; "b.provx"].
  unfold tool_writes_output. cbn [fst snd last].
  rewrite Hfiles. repeat split.
Defined.
